(** * Verification of the file-processing utilities

    A shallow embedding of [convert_numbers.py], [compute_statistics.py]
    and [word_count.py], and the properties their specification states.

    Conventions of the embedding:
    - a Python [int] is a [Z]; [number & 0xffffffff] is [Z.land];
    - a Python [str] is a list of ASCII characters ([str]); the builtin
      string operations are modelled on ASCII text;
    - a [while] loop is run with fuel: [None] means the fuel ran out
      before the loop condition became false;
    - a raised exception is a [Raise] result. *)

From Stdlib Require Import ZArith List Ascii String Bool Lia.
From Stdlib Require Import Permutation Sorted QArith.
Import ListNotations.

#[local] Open Scope Z_scope.
#[local] Open Scope list_scope.

(** ** Python values and builtins *)

Module Py.

Definition str := list ascii.

(** A string literal of the source. *)
Definition py (s : string) : str := list_ascii_of_string s.

Inductive exn : Set :=
| ZeroDivisionError
| OverflowError
| IndexError.

Inductive result (A : Type) : Type :=
| Return (a : A)
| Raise (e : exn).
Arguments Return {A} a.
Arguments Raise {A} e.

Definition bind {A B} (r : result A) (k : A -> result B) : result B :=
  match r with
  | Return a => k a
  | Raise e => Raise e
  end.

(** [len(s)] *)
Definition len {A} (s : list A) : Z := Z.of_nat (List.length s).

(** [s[i:]], with Python's treatment of a negative or too large [i]. *)
Definition slice_from {A} (i : Z) (s : list A) : list A :=
  let start := if i <? 0 then Z.max 0 (len s + i) else Z.min i (len s) in
  skipn (Z.to_nat start) s.

(** The digit characters of [bin] and of [format(_, 'X')]. *)
Definition digit_char (d : Z) : ascii :=
  nth (Z.to_nat d) (py "0123456789ABCDEF") "0"%char.

(** The value of a digit character, as [int(s, base)] reads it. *)
Definition digit_val (c : ascii) : option Z :=
  let n := Z.of_nat (nat_of_ascii c) in
  if (48 <=? n) && (n <=? 57) then Some (n - 48)
  else if (65 <=? n) && (n <=? 90) then Some (n - 55)
  else if (97 <=? n) && (n <=? 122) then Some (n - 87)
  else None.

(** The digits of [m] in [base], least significant first; one digit for 0. *)
Fixpoint digits_lsb (fuel : nat) (base m : Z) : list Z :=
  match fuel with
  | O => []
  | S fuel' =>
      (m mod base) ::
      (if m / base =? 0 then [] else digits_lsb fuel' base (m / base))
  end.

(** The digit string of a non-negative [m], most significant digit first,
    without leading zeros. *)
Definition to_base (base m : Z) : str :=
  map digit_char (rev (digits_lsb (S (Z.to_nat (Z.log2 m))) base m)).

(** [bin(n)] *)
Definition bin (n : Z) : str :=
  (if n <? 0 then py "-0b" else py "0b") ++ to_base 2 (Z.abs n).

(** [format(n, 'X')] *)
Definition format_X (n : Z) : str :=
  (if n <? 0 then py "-" else []) ++ to_base 16 (Z.abs n).

(** [str(n)], which is also how an f-string writes an int. *)
Definition str_of_int (n : Z) : str :=
  (if n <? 0 then py "-" else []) ++ to_base 10 (Z.abs n).

(** [int(s, base)] on a string of digits only (no sign, prefix, blanks
    or underscores): [None] stands for [ValueError]. *)
Definition int_base (base : Z) (s : str) : option Z :=
  match s with
  | [] => None
  | _ =>
      fold_left
        (fun acc c =>
           match acc, digit_val c with
           | Some a, Some d => if d <? base then Some (base * a + d) else None
           | _, _ => None
           end)
        s (Some 0)
  end.

(** [c.isspace()] on ASCII. *)
Definition isspace (c : ascii) : bool :=
  let n := nat_of_ascii c in
  ((9 <=? n) && (n <=? 13) || (28 <=? n) && (n <=? 32))%nat.

(** [c.isalpha()] on ASCII. *)
Definition isalpha_char (c : ascii) : bool :=
  let n := nat_of_ascii c in
  ((65 <=? n) && (n <=? 90) || (97 <=? n) && (n <=? 122))%nat.

(** [c.isdigit()] on ASCII. *)
Definition isdigit_char (c : ascii) : bool :=
  let n := nat_of_ascii c in
  ((48 <=? n) && (n <=? 57))%nat.

(** [s.isalpha()] *)
Definition isalpha (s : str) : bool :=
  match s with
  | [] => false
  | _ => forallb isalpha_char s
  end.

Fixpoint lstrip (s : str) : str :=
  match s with
  | [] => []
  | c :: s' => if isspace c then lstrip s' else s
  end.

(** [s.strip()] *)
Definition strip (s : str) : str := rev (lstrip (rev (lstrip s))).

(** [text.split(sep)] for a one-character separator; the accumulator
    [cur] holds the current piece reversed. *)
Fixpoint split_on_aux (sep : ascii) (cur : str) (s : str) : list str :=
  match s with
  | [] => [rev cur]
  | c :: s' =>
      if Ascii.eqb c sep then rev cur :: split_on_aux sep [] s'
      else split_on_aux sep (c :: cur) s'
  end.

Definition split_on (sep : ascii) (s : str) : list str := split_on_aux sep [] s.

(** [line.split()]: the maximal runs of non-blank characters. *)
Fixpoint split_ws_aux (cur : str) (s : str) : list str :=
  match s with
  | [] => match cur with [] => [] | _ => [rev cur] end
  | c :: s' =>
      if isspace c then
        match cur with
        | [] => split_ws_aux [] s'
        | _ => rev cur :: split_ws_aux [] s'
        end
      else split_ws_aux (c :: cur) s'
  end.

Definition split_ws (s : str) : list str := split_ws_aux [] s.

(** [int(s)] on ASCII decimal literals: blanks around, an optional sign,
    digits, single underscores between digits. [None] is [ValueError]. *)
Fixpoint int_digits (acc : Z) (after_digit : bool) (s : str) : option Z :=
  match s with
  | [] => if after_digit then Some acc else None
  | c :: s' =>
      if isdigit_char c then
        int_digits (10 * acc + (Z.of_nat (nat_of_ascii c) - 48)) true s'
      else if Ascii.eqb c "_" && after_digit then int_digits acc false s'
      else None
  end.

Definition int (s : str) : option Z :=
  match strip s with
  | "+"%char :: s' => int_digits 0 false s'
  | "-"%char :: s' => option_map Z.opp (int_digits 0 false s')
  | s' => int_digits 0 false s'
  end.

(** An insertion-ordered [dict]: the items in the order the keys were first
    set. [eqb k' k] compares a stored key with the one looked up. *)
Section Dict.
Context {K V : Type} (eqb : K -> K -> bool).

(** [d.get(k, default)] *)
Fixpoint dict_get (d : list (K * V)) (k : K) (default : V) : V :=
  match d with
  | [] => default
  | (k', v') :: d' => if eqb k' k then v' else dict_get d' k default
  end.

(** [d[k] = v]: an existing key keeps its place (and its key object), a
    new one goes last. *)
Fixpoint dict_set (d : list (K * V)) (k : K) (v : V) : list (K * V) :=
  match d with
  | [] => [(k, v)]
  | (k', v') :: d' =>
      if eqb k' k then (k', v) :: d' else (k', v') :: dict_set d' k v
  end.
End Dict.

(** [sorted]: a stable sort. [before y x] says that [y] has to come
    strictly before [x]; elements that are not ordered keep their order. *)
Section Sorted.
Context {A : Type} (before : A -> A -> bool).

Fixpoint insert_by (x : A) (l : list A) : list A :=
  match l with
  | [] => [x]
  | y :: l' => if before y x then y :: insert_by x l' else x :: y :: l'
  end.

Definition sorted_by (l : list A) : list A := fold_right insert_by [] l.
End Sorted.

(** [l[i]], with a negative [i] counted from the end. *)
Definition index {A} (l : list A) (i : Z) : result A :=
  let j := if i <? 0 then len l + i else i in
  if j <? 0 then Raise IndexError
  else match nth_error l (Z.to_nat j) with
       | Some a => Return a
       | None => Raise IndexError
       end.

(** What [open(file_path, 'r')] finds: an error, or the lines of the file. *)
Inductive open_result : Type :=
| FileNotFoundError
| PermissionError
| Opened (content : str).

(** The lines a text file yields when iterated: each keeps its newline. *)
Fixpoint file_lines_aux (cur : str) (s : str) : list str :=
  match s with
  | [] => match cur with [] => [] | _ => [rev cur] end
  | c :: s' =>
      if Ascii.eqb c "010" then rev (c :: cur) :: file_lines_aux [] s'
      else file_lines_aux (c :: cur) s'
  end.

Definition file_lines (content : str) : list str := file_lines_aux [] content.

(** How a run of a program ends: [sys.exit(status)], an exception nobody
    catches, or the end of [main] with what it produced. *)
Inductive outcome (R : Type) : Type :=
| Exit (status : Z)
| Uncaught (e : exn)
| Done (r : R).
Arguments Exit {R} status.
Arguments Uncaught {R} e.
Arguments Done {R} r.

(** The exit status of the process. *)
Definition exit_status {R} (o : outcome R) : Z :=
  match o with
  | Exit status => status
  | Uncaught _ => 1
  | Done _ => 0
  end.

End Py.

Import Py.

(** ** convert_numbers.py *)

Module ConvertNumbers.

(** The loop of [to_twos_complement]: [while len(binary_str) < bits]. One
    unit of fuel pays for one execution of the loop body. *)
Fixpoint sign_extend (fuel : nat) (binary_str : str) (bits : Z) : option str :=
  if len binary_str <? bits then
    match fuel with
    | O => None
    | S fuel' => sign_extend fuel' ("1"%char :: binary_str) bits
    end
  else Some binary_str.

Definition to_twos_complement (fuel : nat) (binary_str : str) (bits : Z)
  : option str :=
  if bits <? len binary_str then Some (slice_from (- bits) binary_str)
  else sign_extend fuel binary_str bits.

Definition convert_to_binary (fuel : nat) (number : Z) : option str :=
  if 0 <=? number then
    let binary_representation := slice_from 2 (bin number) in
    Some (slice_from (-10) binary_representation)
  else
    let positive_binary := slice_from 2 (bin (Z.land number 0xffffffff)) in
    match to_twos_complement fuel positive_binary 32 with
    | Some binary_representation =>
        Some (slice_from (-10) binary_representation)
    | None => None
    end.

Definition convert_to_hexadecimal (number : Z) : str :=
  let hexadecimal := format_X (Z.land number 0xffffffff) in
  if number <? 0 then py "FF" ++ hexadecimal else hexadecimal.

(** What the program prints. *)
Inductive message : Type :=
| Usage
| ErrorReadingFile (file_path : str)
| InvalidDataSkipped (stripped_line : str)
| NoValidDataFound
| Converted (number : Z) (binary hexadecimal : str)
| ResultsWritten.

(** The body of [read_file]'s loop over the lines of the file. *)
Fixpoint read_lines (lines : list str) : list message * list Z :=
  match lines with
  | [] => ([], [])
  | line :: lines' =>
      let stripped_line := strip line in
      let '(printed, numbers) := read_lines lines' in
      match int stripped_line with
      | Some number => (printed, number :: numbers)
      | None => (InvalidDataSkipped stripped_line :: printed, numbers)
      end
  end.

Definition read_file (fs : str -> open_result) (file_path : str)
  : list message * list Z :=
  match fs file_path with
  | Opened content => read_lines (file_lines content)
  | FileNotFoundError | PermissionError => ([ErrorReadingFile file_path], [])
  end.

(** A line of [ConversionResults.txt]. *)
Record conversion : Type :=
  { number : Z; binary : str; hexadecimal : str }.

(** The line that [write_results_to_file] writes for a result. *)
Definition result_line (result : conversion) : str :=
  str_of_int (number result) ++ py ", " ++ binary result ++ py ", "
    ++ hexadecimal result ++ ["010"%char].

(** [write_results_to_file]: the content of [ConversionResults.txt]. *)
Definition write_results_to_file (results : list conversion) : str :=
  (py "Number, Binary, Hexadecimal" ++ ["010"%char])
    ++ List.concat (map result_line results).

(** The loop of [main] over the numbers read. *)
Fixpoint convert_all (fuel : nat) (numbers : list Z)
  : option (list message * list conversion) :=
  match numbers with
  | [] => Some ([], [])
  | number :: numbers' =>
      match convert_to_binary fuel number with
      | None => None
      | Some binary =>
          let hexadecimal := convert_to_hexadecimal number in
          match convert_all fuel numbers' with
          | None => None
          | Some (printed, results) =>
              Some (Converted number binary hexadecimal :: printed,
                    {| number := number; binary := binary;
                       hexadecimal := hexadecimal |} :: results)
          end
      end
  end.

(** [main]: [argv] is [sys.argv], [fs] the file system; the result is what
    was printed, and how the run ended (with the lines written to the
    results file). The execution time is left out. *)
Definition main (fuel : nat) (argv : list str) (fs : str -> open_result)
  : option (list message * outcome (list conversion)) :=
  match argv with
  | [] | [_] => Some ([Usage], Exit 1)
  | _ :: file_path :: _ =>
      let '(printed, numbers) := read_file fs file_path in
      match numbers with
      | [] => Some (printed ++ [NoValidDataFound], Exit 2)
      | _ =>
          match convert_all fuel numbers with
          | None => None
          | Some (printed', results) =>
              Some (printed ++ printed' ++ [ResultsWritten], Done results)
          end
      end
  end.

End ConvertNumbers.


(** ** compute_statistics.py *)

Module ComputeStatistics.

(** The numbers the program computes with. The source uses Python floats;
    the embedding is generic in their arithmetic. [x ** y] can raise
    [OverflowError]; [key_eqb] is the equality a [dict] uses on its keys,
    an equivalence on numbers other than NaN. *)
Class Number (F : Type) : Type :=
  { of_int : Z -> F;
    add : F -> F -> F;
    sub : F -> F -> F;
    div : F -> F -> F;
    pow_2 : F -> result F;
    pow_half : F -> result F;
    ltb : F -> F -> bool;
    key_eqb : F -> F -> bool;
    float : str -> option F;
    key_eqb_refl : forall x, key_eqb x x = true;
    key_eqb_sym : forall x y, key_eqb x y = true -> key_eqb y x = true;
    key_eqb_trans : forall x y z,
        key_eqb x y = true -> key_eqb y z = true -> key_eqb x z = true }.

Section Statistics.
Context {F : Type} `{Number F}.

(** [x / d] for an int [d]. *)
Definition truediv (x : F) (d : Z) : result F :=
  if d =? 0 then Raise ZeroDivisionError else Return (div x (of_int d)).

(** [sum(data)] *)
Definition sum (data : list F) : F := fold_left add data (of_int 0).

Inductive message : Type :=
| Usage
| FileNotFound (file_path : str)
| PermissionDenied (file_path : str)
| InvalidDataSkipped (stripped_line : str)
| NoValidDataFound.

Fixpoint read_lines (lines : list str) : list message * list F :=
  match lines with
  | [] => ([], [])
  | line :: lines' =>
      let stripped_line := strip line in
      let '(printed, valid_data) := read_lines lines' in
      match float stripped_line with
      | Some number => (printed, number :: valid_data)
      | None => (InvalidDataSkipped stripped_line :: printed, valid_data)
      end
  end.

Definition read_file (fs : str -> open_result) (file_path : str)
  : list message * list F :=
  match fs file_path with
  | Opened content => read_lines (file_lines content)
  | FileNotFoundError => ([FileNotFound file_path], [])
  | PermissionError => ([PermissionDenied file_path], [])
  end.

Definition compute_mean (data : list F) : result F :=
  match data with
  | [] => Return (of_int 0)
  | _ => truediv (sum data) (len data)
  end.

Definition compute_median (data : list F) : result F :=
  let sorted_data := sorted_by ltb data in
  let n := len data in
  let mid := n / 2 in
  if n mod 2 =? 0 then
    bind (index sorted_data mid) (fun a =>
    bind (index sorted_data (- mid - 1)) (fun b =>
    truediv (add a b) 2))
  else index sorted_data mid.

(** The value of [compute_mode]: the string ["NA"] or a number. *)
Inductive mode : Type :=
| NA
| Mode (x : F).

(** The body of the loop of [compute_mode]. *)
Definition count_one (frequency : list (F * Z)) (num : F) : list (F * Z) :=
  dict_set key_eqb frequency num (dict_get key_eqb frequency num 0 + 1).

(** The [frequency] dict after the loop over [data]. *)
Definition count_frequency (data : list F) : list (F * Z) :=
  fold_left count_one data [].

(** [max(values, default=0)] *)
Definition max_default_0 (values : list Z) : Z :=
  match values with
  | [] => 0
  | v :: values' => fold_left Z.max values' v
  end.

Definition compute_mode (data : list F) : result mode :=
  let frequency := count_frequency data in
  let max_frequency := max_default_0 (map snd frequency) in
  let modes :=
    map fst (filter (fun item => snd item =? max_frequency) frequency) in
  if len data =? len modes then Return NA
  else bind (index modes 0) (fun m => Return (Mode m)).

(** [sum((x - mean) ** 2 for x in data)]: the first power that overflows
    ends the sum. *)
Fixpoint sum_squares (acc : F) (data : list F) (mean : F) : result F :=
  match data with
  | [] => Return acc
  | x :: data' =>
      bind (pow_2 (sub x mean)) (fun sq => sum_squares (add acc sq) data' mean)
  end.

Definition compute_variance (data : list F) (mean : F) : result F :=
  match data with
  | [] => Return (of_int 0)
  | _ =>
      bind (sum_squares (of_int 0) data mean) (fun total =>
      truediv total (len data - 1))
  end.

Definition compute_std_dev (variance : F) : result F := pow_half variance.

(** The [results] dict of [main], without the execution time. *)
Record statistics : Type :=
  { Count : Z;
    Mean : F;
    Median : F;
    Mode_ : mode;
    Standard_Deviation : F;
    Variance : F }.

Definition compute_all (data : list F) : result statistics :=
  let count := len data in
  bind (compute_mean data) (fun mean =>
  bind (compute_median data) (fun median =>
  bind (compute_mode data) (fun mode =>
  bind (compute_variance data mean) (fun variance =>
  bind (compute_std_dev variance) (fun std_dev =>
  Return {| Count := count; Mean := mean; Median := median;
            Mode_ := mode; Standard_Deviation := std_dev;
            Variance := variance |}))))).

Definition main (argv : list str) (fs : str -> open_result)
  : list message * outcome statistics :=
  match argv with
  | [] | [_] => ([Usage], Exit 1)
  | _ :: file_path :: _ =>
      let '(printed, data) := read_file fs file_path in
      match data with
      | [] => (printed ++ [NoValidDataFound], Exit 2)
      | _ =>
          match compute_all data with
          | Raise e => (printed, Uncaught e)
          | Return results => (printed, Done results)
          end
      end
  end.

End Statistics.

Arguments message : clear implicits.
Arguments mode : clear implicits.
Arguments statistics : clear implicits.

End ComputeStatistics.

(** ** word_count.py *)

Module WordCount.

Definition key_eqb (a b : str) : bool :=
  if list_eq_dec ascii_dec a b then true else false.

Inductive message : Type :=
| Usage
| FileNotFound (file_path : str)
| PermissionDenied (file_path : str)
| InvalidDataSkipped (word : str)
| Pair (word : str) (count : Z)
| GrandTotal (sum_of_words : Z)
| ResultsWritten.

(** [read_file]: the content, or the [sys.exit(1)] of the handlers. *)
Definition read_file (fs : str -> open_result) (file_path : str)
  : list message * outcome str :=
  match fs file_path with
  | Opened content => ([], Done content)
  | FileNotFoundError => ([FileNotFound file_path], Exit 1)
  | PermissionError => ([PermissionDenied file_path], Exit 1)
  end.

(** The inner loop of [count_words], over the words of a line. *)
Fixpoint count_line (words : list str) (word_count : list (str * Z))
  : list message * list (str * Z) :=
  match words with
  | [] => ([], word_count)
  | word :: words' =>
      if isalpha word then
        count_line words'
          (dict_set key_eqb word_count word
             (dict_get key_eqb word_count word 0 + 1))
      else
        let '(printed, word_count') := count_line words' word_count in
        (InvalidDataSkipped word :: printed, word_count')
  end.

(** The outer loop of [count_words], over the lines. The key ["(Blank)"] is
    in the dict from the start, so that [word_count["(Blank)"] += 1] finds
    it. *)
Fixpoint count_lines (lines : list str) (word_count : list (str * Z))
  : list message * list (str * Z) :=
  match lines with
  | [] => ([], word_count)
  | line :: lines' =>
      match strip line with
      | [] =>
          count_lines lines'
            (dict_set key_eqb word_count (py "(Blank)")
               (dict_get key_eqb word_count (py "(Blank)") 0 + 1))
      | _ =>
          let '(printed, word_count') := count_line (split_ws line) word_count in
          let '(printed', word_count'') := count_lines lines' word_count' in
          (printed ++ printed', word_count'')
      end
  end.

Definition count_words (text : str) : list message * list (str * Z) :=
  let lines := split_on "010" text in
  count_lines lines [(py "(Blank)", 0)].

(** The order of [key=lambda x: x[1], reverse=True]: [y] goes before [x]
    when its count is the larger one. *)
Definition by_count (y x : str * Z) : bool := snd x <? snd y.

(** [sorted(word_count.items(), key=lambda x: x[1], reverse=True)] *)
Definition sorted_items (word_count : list (str * Z)) : list (str * Z) :=
  sorted_by by_count word_count.

(** [write_results_to_file]: the lines of [WordCountResults.txt]. *)
Definition write_results_to_file (word_count : list (str * Z))
  : list (str * Z) :=
  sorted_items word_count.

(** The loop of [main] that prints the pairs and adds the counts up. *)
Fixpoint print_pairs (items : list (str * Z)) (sum_of_words : Z)
  : list message * Z :=
  match items with
  | [] => ([], sum_of_words)
  | (word, count) :: items' =>
      let '(printed, total) := print_pairs items' (sum_of_words + count) in
      (Pair word count :: printed, total)
  end.

(** What a complete run leaves: the pairs printed, in order, the grand
    total, and the lines of the results file. *)
Record report : Type :=
  { pairs : list (str * Z);
    grand_total : Z;
    written : list (str * Z) }.

Definition main (argv : list str) (fs : str -> open_result)
  : list message * outcome report :=
  match argv with
  | [] | [_] => ([Usage], Exit 1)
  | _ :: file_path :: _ =>
      match read_file fs file_path with
      | (printed, Exit status) => (printed, Exit status)
      | (printed, Uncaught e) => (printed, Uncaught e)
      | (printed, Done text) =>
          let '(printed1, word_count) := count_words text in
          let items := sorted_items word_count in
          let '(printed2, sum_of_words) := print_pairs items 0 in
          let word_count' :=
            dict_set key_eqb word_count (py "Grand Total") sum_of_words in
          (printed ++ printed1 ++ printed2
             ++ [GrandTotal sum_of_words; ResultsWritten],
           Done {| pairs := items; grand_total := sum_of_words;
                   written := write_results_to_file word_count' |})
      end
  end.

End WordCount.

(** ** Exact rational numbers as an instance of [Number]

    An idealisation of the floats, used to run the statistics on concrete
    inputs: the arithmetic is exact and never overflows, the square root is
    truncated to six decimals, and [float] reads plain decimal literals
    ([-12], [3.5], [.25]) only. *)

Module ExactNumber.
Import ComputeStatistics.

Definition digits_value (s : str) : option Z :=
  if forallb isdigit_char s then
    Some (fold_left (fun acc c => 10 * acc + (Z.of_nat (nat_of_ascii c) - 48)) s 0)
  else None.

Definition unsigned_decimal (s : str) : option Q :=
  match split_on "." s with
  | [i] =>
      match i, digits_value i with
      | _ :: _, Some a => Some (inject_Z a)
      | _, _ => None
      end
  | [i; f] =>
      match i ++ f, digits_value i, digits_value f with
      | _ :: _, Some a, Some b =>
          let scale := 10 ^ len f in
          Some (Qmake (a * scale + b) (Z.to_pos scale))
      | _, _, _ => None
      end
  | _ => None
  end.

Definition decimal (s : str) : option Q :=
  match strip s with
  | "+"%char :: s' => unsigned_decimal s'
  | "-"%char :: s' => option_map Qopp (unsigned_decimal s')
  | s' => unsigned_decimal s'
  end.

Definition sqrt_6 (x : Q) : Q :=
  Qmake (Z.sqrt (Qnum x * 10 ^ 12 / Zpos (Qden x))) (Z.to_pos (10 ^ 6)).

#[export] Instance Q_Number : Number Q :=
  { of_int := inject_Z;
    add := Qplus;
    sub := Qminus;
    div := Qdiv;
    pow_2 := fun x => Return (Qmult x x);
    pow_half := fun x => Return (sqrt_6 x);
    ltb := fun x y => negb (Qle_bool y x);
    key_eqb := Qeq_bool;
    float := decimal;
    key_eqb_refl := Qeq_bool_refl;
    key_eqb_sym := Qeq_bool_sym;
    key_eqb_trans := Qeq_bool_trans }.

(** A file system with one readable file, [data.txt], and one file that
    may not be read, [secret.txt]. *)
Definition one_file (content : str) (file_path : str) : open_result :=
  if WordCount.key_eqb file_path (py "data.txt") then Opened content
  else if WordCount.key_eqb file_path (py "secret.txt") then PermissionError
  else FileNotFoundError.

Definition nl : string := String "010" EmptyString.

End ExactNumber.

(** ** Notions the properties are stated with *)

Module Spec.

(** The number a list of digits, least significant first, stands for. *)
Definition eval_lsb (base : Z) (ds : list Z) : Z :=
  fold_right (fun d acc => d + base * acc) 0 ds.

(** [s] is the digit string of [m] in [base]: its characters are the
    digits [0-9A-F] below [base], read as a number it is [m], and it has no
    leading zero (zero itself is the one character [0]). *)
Definition digit_string (base : Z) (s : str) (m : Z) : Prop :=
  Forall (fun c => exists d, 0 <= d < base /\ c = digit_char d) s /\
  int_base base s = Some m /\
  (hd "0"%char s = "0"%char -> s = py "0").

(** [s] left-padded with the character [c] to [width] characters. *)
Definition left_pad (c : ascii) (width : nat) (s : str) : str :=
  repeat c (width - List.length s) ++ s.

(** The rightmost [width] characters of [s] (all of [s] if it is shorter). *)
Definition rightmost {A} (width : nat) (s : list A) : list A :=
  skipn (List.length s - width) s.

(** [open] fails on the file. *)
Definition cannot_open (fs : str -> open_result) (file_path : str) : Prop :=
  fs file_path = FileNotFoundError \/ fs file_path = PermissionError.

(** The file can be read, and none of its lines, stripped, is valid data
    for [parse]. *)
Definition no_line_parses {A} (parse : str -> option A)
  (fs : str -> open_result) (file_path : str) : Prop :=
  exists content,
    fs file_path = Opened content /\
    Forall (fun line => parse (strip line) = None) (file_lines content).

Section Frequency.
Context {F : Type} `{ComputeStatistics.Number F}.

(** How often [x] occurs in [data], up to the equality of dict keys. *)
Definition occurrences (x : F) (data : list F) : Z :=
len (filter (ComputeStatistics.key_eqb x) data).

(** Some key of the dict [d] equals [x]. *)
Definition has_key (d : list (F * Z)) (x : F) : bool :=
existsb (fun k => ComputeStatistics.key_eqb k x) (map fst d).

(** No two of the keys are equal. *)
Fixpoint distinct (keys : list F) : Prop :=
match keys with
| [] => True
| k :: keys' =>
    existsb (fun k' => ComputeStatistics.key_eqb k' k) keys' = false /\
    distinct keys'
end.

(** One more occurrence for the item of key [x]. *)
Definition bump (x : F) (item : F * Z) : F * Z :=
if ComputeStatistics.key_eqb (fst item) x then (fst item, snd item + 1)
else item.

Definition sum_values (d : list (F * Z)) : Z :=
fold_right Z.add 0 (map snd d).

(** What holds of the [frequency] dict of [compute_mode] once the items
  [seen] went through its loop. *)
Record counted (frequency : list (F * Z)) (seen : list F) : Prop :=
{ counted_distinct : distinct (map fst frequency);
  counted_values : forall k v,
      In (k, v) frequency -> In k seen /\ v = occurrences k seen;
  counted_keys : forall x, In x seen -> has_key frequency x = true;
  counted_sum : sum_values frequency = len seen }.

End Frequency.

(** The sum of the counts of a dict of counters. *)
Definition total (counts : list (str * Z)) : Z :=
  fold_right Z.add 0 (map snd counts).

(** A list of counted items is in descending order of count. *)
Definition descending (items : list (str * Z)) : Prop :=
  StronglySorted (fun a b => snd a >= snd b) items.

(** The string holds no newline. *)
Definition one_line (s : str) : Prop := Forall (fun c => c <> "010"%char) s.








End Spec.

Import Spec.

(** * Properties *)

(** ** Facts about the builtins *)

Module PyFacts.

Lemma len_nonneg {A} (s : list A) : 0 <= len s.
Proof. unfold len. lia. Qed.

Lemma len_cons {A} (a : A) (s : list A) : len (a :: s) = len s + 1.
Proof. unfold len. simpl List.length. lia. Qed.

Lemma len_app {A} (s t : list A) : len (s ++ t) = len s + len t.
Proof. unfold len. rewrite length_app. lia. Qed.

(** [s[-k:]] drops all but the last [k] items. *)
Lemma slice_from_neg {A} (k : Z) (s : list A) :
  0 < k -> slice_from (- k) s = skipn (List.length s - Z.to_nat k) s.
Proof.
  intros Hk. unfold slice_from, len.
  replace (- k <? 0) with true by (symmetry; apply Z.ltb_lt; lia).
  f_equal. lia.
Qed.

Lemma slice_from_neg_short {A} (k : Z) (s : list A) :
  0 < k -> len s <= k -> slice_from (- k) s = s.
Proof.
  intros Hk Hs. rewrite slice_from_neg by assumption.
  unfold len in Hs.
  replace (List.length s - Z.to_nat k)%nat with 0%nat by lia.
  reflexivity.
Qed.

Lemma slice_from_neg_len {A} (k : Z) (s : list A) :
  0 < k -> len (slice_from (- k) s) = Z.min k (len s).
Proof.
  intros Hk. rewrite slice_from_neg by assumption.
  unfold len. rewrite length_skipn. lia.
Qed.

(** The last [k] items of [s ++ t] are those of [t] when [t] has [k]. *)
Lemma slice_from_neg_app {A} (k : Z) (s t : list A) :
  0 < k -> k <= len t -> slice_from (- k) (s ++ t) = slice_from (- k) t.
Proof.
  intros Hk Ht. rewrite !slice_from_neg by assumption.
  unfold len in Ht. rewrite skipn_app, length_app.
  replace (List.length s + List.length t - Z.to_nat k - List.length s)%nat
    with (List.length t - Z.to_nat k)%nat by lia.
  rewrite skipn_all2 by lia. reflexivity.
Qed.

Lemma slice_from_neg_rev {A} (k : Z) (l : list A) :
  0 < k -> slice_from (- k) (rev l) = rev (firstn (Z.to_nat k) l).
Proof.
  intros Hk. rewrite slice_from_neg by assumption.
  rewrite length_rev, skipn_rev. f_equal.
  destruct (Nat.le_gt_cases (List.length l) (Z.to_nat k)) as [Hle | Hgt].
  - replace (List.length l - (List.length l - Z.to_nat k))%nat
      with (List.length l) by lia.
    rewrite !firstn_all2 by lia. reflexivity.
  - f_equal. lia.
Qed.

Lemma slice_from_map {A B} (f : A -> B) (i : Z) (l : list A) :
  slice_from i (map f l) = map f (slice_from i l).
Proof.
  unfold slice_from, len. rewrite length_map. apply skipn_map.
Qed.

(** *** Digits *)

Lemma pow2_le_pow (base : Z) (n : nat) :
  2 <= base -> 2 ^ Z.of_nat n <= base ^ Z.of_nat n.
Proof. intros Hb. apply Z.pow_le_mono_l. lia. Qed.

Lemma half_bound (base m : Z) (f : nat) :
  2 <= base -> 0 <= m < 2 ^ Z.of_nat (S f) -> 0 <= m / base < 2 ^ Z.of_nat f.
Proof.
  intros Hb [Hm0 Hm]. rewrite Nat2Z.inj_succ, Z.pow_succ_r in Hm by lia.
  split.
  - apply Z.div_pos; lia.
  - apply Z.div_lt_upper_bound; [lia|]. nia.
Qed.

Lemma digits_lsb_nonempty (fuel : nat) (base m : Z) :
  fuel <> O -> digits_lsb fuel base m <> [].
Proof. destruct fuel; [congruence | discriminate]. Qed.

Lemma digits_lsb_range (fuel : nat) (base m : Z) :
  2 <= base -> Forall (fun d => 0 <= d < base) (digits_lsb fuel base m).
Proof.
  intros Hb. revert m. induction fuel as [|f IH]; intros m; simpl.
  - constructor.
  - constructor.
    + apply Z.mod_pos_bound. lia.
    + destruct (m / base =? 0); [constructor | apply IH].
Qed.

(** The first [k] digits stand for [m mod base ^ k]. *)
Lemma digits_lsb_firstn (fuel : nat) (base : Z) :
  2 <= base ->
  forall (k : nat) (m : Z),
    0 <= m < 2 ^ Z.of_nat fuel ->
    eval_lsb base (firstn k (digits_lsb fuel base m)) = m mod base ^ Z.of_nat k.
Proof.
  intros Hb. induction fuel as [|f IH]; intros k m Hm.
  - simpl in Hm. assert (m = 0) by lia. subst m.
    rewrite firstn_nil. simpl. now rewrite Z.mod_0_l by (apply Z.pow_nonzero; lia).
  - destruct k as [|k].
    + simpl. now rewrite Z.mod_1_r.
    + cbn [digits_lsb firstn eval_lsb fold_right].
      fold (eval_lsb base
              (firstn k (if m / base =? 0 then [] else digits_lsb f base (m / base)))).
      rewrite Nat2Z.inj_succ, Z.pow_succ_r by lia.
      rewrite Z.rem_mul_r by (try apply Z.pow_pos_nonneg; lia).
      f_equal. f_equal.
      destruct (Z.eqb_spec (m / base) 0) as [Hq | Hq].
      * rewrite firstn_nil, Hq. simpl.
        now rewrite Z.mod_0_l by (apply Z.pow_nonzero; lia).
      * apply IH. now apply half_bound.
Qed.

(** All the digits stand for [m]. *)
Lemma digits_lsb_eval (fuel : nat) (base m : Z) :
  2 <= base -> 0 <= m < 2 ^ Z.of_nat fuel ->
  eval_lsb base (digits_lsb fuel base m) = m.
Proof.
  intros Hb Hm.
  assert (Hlen : (List.length (digits_lsb fuel base m) <= fuel)%nat).
  { clear Hm. revert m. induction fuel as [|f IH]; intros m; simpl; [lia|].
    destruct (m / base =? 0); simpl; [lia|]. specialize (IH (m / base)). lia. }
  pose proof (digits_lsb_firstn fuel base Hb fuel m Hm) as E.
  rewrite firstn_all2 in E by exact Hlen. rewrite E.
  apply Z.mod_small. split; [lia|].
  pose proof (pow2_le_pow base fuel Hb). lia.
Qed.

Lemma log2_fuel (m : Z) : 0 <= m -> 0 <= m < 2 ^ Z.of_nat (S (Z.to_nat (Z.log2 m))).
Proof.
  intros Hm. split; [assumption|].
  rewrite Nat2Z.inj_succ, Z2Nat.id by apply Z.log2_nonneg.
  destruct (Z.eq_dec m 0) as [-> | Hne]; [reflexivity|].
  apply Z.log2_spec. lia.
Qed.

Lemma digit_val_digit_char (d : Z) :
  0 <= d < 16 -> digit_val (digit_char d) = Some d.
Proof.
  intros Hd.
  assert (E : d = 0 \/ d = 1 \/ d = 2 \/ d = 3 \/ d = 4 \/ d = 5 \/ d = 6 \/
              d = 7 \/ d = 8 \/ d = 9 \/ d = 10 \/ d = 11 \/ d = 12 \/
              d = 13 \/ d = 14 \/ d = 15) by lia.
  repeat (destruct E as [-> | E]; [reflexivity|]). subst d. reflexivity.
Qed.

(** Reading the digits back, most significant first. *)
Lemma int_base_digits (base : Z) (ds : list Z) :
  base <= 16 -> ds <> [] -> Forall (fun d => 0 <= d < base) ds ->
  int_base base (map digit_char (rev ds)) = Some (eval_lsb base ds).
Proof.
  intros Hb Hne Hds. unfold int_base.
  set (step := fun (acc : option Z) (c : ascii) =>
                 match acc, digit_val c with
                 | Some a, Some d => if d <? base then Some (base * a + d) else None
                 | _, _ => None
                 end).
  assert (Hfold : fold_left step (map digit_char (rev ds)) (Some 0)
                  = Some (eval_lsb base ds)).
  { clear Hne. induction Hds as [|d ds Hd Hds IH]; [reflexivity|].
    simpl rev. rewrite map_app, fold_left_app, IH. simpl.
    rewrite digit_val_digit_char by lia.
    replace (d <? base) with true by (symmetry; apply Z.ltb_lt; lia).
    f_equal. lia. }
  destruct (map digit_char (rev ds)) eqn:E; [|exact Hfold].
  apply (f_equal (@List.length ascii)) in E.
  rewrite length_map, length_rev in E. destruct ds; [congruence | discriminate].
Qed.

Lemma int_base_to_base (base m : Z) :
  2 <= base <= 16 -> 0 <= m -> int_base base (to_base base m) = Some m.
Proof.
  intros Hb Hm. unfold to_base.
  rewrite int_base_digits.
  - f_equal. apply digits_lsb_eval; [lia | now apply log2_fuel].
  - lia.
  - now apply digits_lsb_nonempty.
  - apply digits_lsb_range. lia.
Qed.

(** The most significant digit is not zero, but for the number zero. *)
Lemma digits_lsb_last (fuel : nat) (base m : Z) :
  2 <= base -> 0 <= m < 2 ^ Z.of_nat fuel -> fuel <> O ->
  (m = 0 /\ digits_lsb fuel base m = [0]) \/
  0 < last (digits_lsb fuel base m) 0.
Proof.
  intros Hb. revert m. induction fuel as [|f IH]; intros m Hm Hf; [congruence|].
  cbn [digits_lsb].
  destruct (Z.eqb_spec (m / base) 0) as [Hq | Hq].
  - assert (Hsmall : m < base).
    { destruct (Z.lt_ge_cases m base); [assumption|].
      assert (1 <= m / base) by (apply Z.div_le_lower_bound; lia). lia. }
    rewrite Z.mod_small by lia.
    destruct (Z.eq_dec m 0) as [-> | Hne]; [now left | right; simpl; lia].
  - pose proof (half_bound base m f Hb Hm) as Hh.
    assert (Hf' : f <> O) by (intros ->; simpl in Hh; lia).
    destruct (IH (m / base) Hh Hf') as [[H0 _] | Hlast]; [contradiction|].
    right. destruct (digits_lsb f base (m / base)) eqn:E.
    + simpl in Hlast. lia.
    + exact Hlast.
Qed.

Lemma digit_char_zero (d : Z) :
  0 <= d < 16 -> digit_char d = "0"%char -> d = 0.
Proof.
  intros Hd E. apply (f_equal digit_val) in E.
  rewrite digit_val_digit_char in E by assumption.
  change (digit_val "0") with (Some 0) in E. congruence.
Qed.

Lemma hd_map_rev (ds : list Z) :
  ds <> [] -> hd "0"%char (map digit_char (rev ds)) = digit_char (last ds 0).
Proof.
  intros Hne. destruct (exists_last Hne) as (ds' & d & ->).
  rewrite rev_app_distr, last_last. reflexivity.
Qed.

(** [to_base] gives the digit string of its argument. *)
Lemma to_base_digit_string (base m : Z) :
  2 <= base <= 16 -> 0 <= m -> digit_string base (to_base base m) m.
Proof.
  intros Hb Hm. repeat split.
  - unfold to_base. apply Forall_map, Forall_rev.
    eapply Forall_impl; [| apply digits_lsb_range; lia].
    intros d Hd. now exists d.
  - now apply int_base_to_base.
  - unfold to_base. set (fuel := S (Z.to_nat (Z.log2 m))).
    assert (Hfuel : fuel <> O) by (unfold fuel; lia).
    rewrite hd_map_rev by now apply digits_lsb_nonempty.
    intros Hz.
    destruct (digits_lsb_last fuel base m) as [[_ ->] | Hlast];
      [lia | now apply log2_fuel | assumption | reflexivity |].
    apply digit_char_zero in Hz; [lia|].
    pose proof (digits_lsb_range fuel base m (proj1 Hb)) as Hr.
    assert (Hin : In (last (digits_lsb fuel base m) 0) (digits_lsb fuel base m)).
    { destruct (exists_last (digits_lsb_nonempty fuel base m Hfuel))
        as (ds' & d & E).
      rewrite E, last_last. apply in_or_app. right. now left. }
    rewrite Forall_forall in Hr. specialize (Hr _ Hin). lia.
Qed.

(** *** A number has one digit string only *)

Lemma eval_lsb_cons (base d : Z) (ds : list Z) :
  eval_lsb base (d :: ds) = d + base * eval_lsb base ds.
Proof. reflexivity. Qed.

Lemma eval_lsb_upper (base : Z) (ds : list Z) :
  2 <= base -> Forall (fun d => 0 <= d < base) ds ->
  0 <= eval_lsb base ds < base ^ len ds.
Proof.
  intros Hb. induction 1 as [|d ds Hd Hds IH].
  - change (eval_lsb base []) with 0. change (len (@nil Z)) with 0.
    rewrite Z.pow_0_r. lia.
  - rewrite eval_lsb_cons, len_cons.
    replace (len ds + 1) with (Z.succ (len ds)) by lia.
    rewrite Z.pow_succ_r by apply len_nonneg. nia.
Qed.

Lemma eval_lsb_lower (base : Z) (ds : list Z) :
  2 <= base -> Forall (fun d => 0 <= d < base) ds -> 0 < last ds 0 ->
  base ^ (len ds - 1) <= eval_lsb base ds.
Proof.
  intros Hb. induction 1 as [|d ds Hd Hds IH]; intros Hlast.
  - simpl in Hlast. lia.
  - rewrite eval_lsb_cons, len_cons. destruct ds as [|d' ds].
    + change (len (@nil Z)) with 0. change (eval_lsb base []) with 0.
      simpl in Hlast. change (0 + 1 - 1) with 0. rewrite Z.pow_0_r. lia.
    + specialize (IH Hlast). rewrite len_cons in *.
      replace (len ds + 1 + 1 - 1) with (Z.succ (len ds + 1 - 1)) by lia.
      rewrite Z.pow_succ_r by (pose proof (len_nonneg ds); lia). nia.
Qed.

Lemma eval_lsb_inj (base : Z) (ds : list Z) :
  2 <= base -> Forall (fun d => 0 <= d < base) ds ->
  forall ds', Forall (fun d => 0 <= d < base) ds' ->
    List.length ds = List.length ds' ->
    eval_lsb base ds = eval_lsb base ds' -> ds = ds'.
Proof.
  intros Hb. induction 1 as [|d ds Hd Hds IH]; intros ds' Hds' Hlen Heval.
  - destruct ds'; [reflexivity | discriminate].
  - destruct ds' as [|d' ds']; [discriminate|].
    inversion Hds' as [|? ? Hd' Hds'']; subst.
    rewrite !eval_lsb_cons in Heval.
    assert (Hdd : d = d').
    { pose proof (f_equal (fun z => z mod base) Heval) as Hmod. cbv beta in Hmod.
      rewrite !(Z.mul_comm base) in Hmod.
      rewrite !Z.mod_add, !Z.mod_small in Hmod by lia. exact Hmod. }
    subst d'. f_equal. apply IH; [assumption | now inversion Hlen |].
    apply (Z.mul_reg_l _ _ base); lia.
Qed.

(** The digits, least significant first, that a digit string is made of. *)
Lemma digit_string_digits (base : Z) (s : str) (m : Z) :
  2 <= base <= 16 -> digit_string base s m ->
  exists ds,
    s = map digit_char (rev ds) /\
    Forall (fun d => 0 <= d < base) ds /\
    eval_lsb base ds = m /\
    (ds = [0] \/ 0 < last ds 0).
Proof.
  intros Hb (Hchars & Hval & Hlead).
  assert (Hmsb : exists dsm, s = map digit_char dsm /\
                             Forall (fun d => 0 <= d < base) dsm).
  { clear Hval Hlead. induction Hchars as [|c s (d & Hd & ->) _ (dsm & -> & IH)].
    - now exists [].
    - exists (d :: dsm). split; [reflexivity | now constructor]. }
  destruct Hmsb as (dsm & -> & Hrange).
  assert (Hrev : Forall (fun d => 0 <= d < base) (rev dsm)) by now apply Forall_rev.
  assert (Hne : rev dsm <> []).
  { intros E. apply (f_equal (@rev Z)) in E. rewrite rev_involutive in E.
    simpl in E. subst dsm. discriminate. }
  exists (rev dsm). rewrite rev_involutive. split; [reflexivity|].
  split; [assumption|]. split.
  - rewrite <- (rev_involutive dsm) in Hval at 1.
    rewrite int_base_digits in Hval by (assumption || lia). congruence.
  - assert (Hin : In (last (rev dsm) 0) (rev dsm)).
    { destruct (exists_last Hne) as (ds' & d & E).
      rewrite E, last_last. apply in_or_app. right. now left. }
    pose proof (proj1 (Forall_forall _ _) Hrev _ Hin) as Hlast.
    cbv beta in Hlast.
    destruct (Z.eq_dec (last (rev dsm) 0) 0) as [Hz | Hnz]; [left | right; lia].
    rewrite <- (rev_involutive dsm) in Hlead at 1.
    rewrite hd_map_rev, Hz in Hlead by assumption.
    specialize (Hlead eq_refl).
    destruct dsm as [|d [|d' dsm]]; try discriminate.
    simpl in Hz. now subst d.
Qed.

(** Two digit strings of one number are the same string. *)
Lemma digit_string_unique (base : Z) (s s' : str) (m : Z) :
  2 <= base <= 16 ->
  digit_string base s m -> digit_string base s' m -> s = s'.
Proof.
  intros Hb Hs Hs'.
  destruct (digit_string_digits base s m Hb Hs) as (ds & -> & Hr & Hv & Hl).
  destruct (digit_string_digits base s' m Hb Hs') as (ds' & -> & Hr' & Hv' & Hl').
  do 2 f_equal.
  assert (Hpow : forall a b, a <= b -> 0 <= a -> base ^ a <= base ^ b)
    by (intros; apply Z.pow_le_mono_r; lia).
  destruct Hl as [-> | Hl], Hl' as [-> | Hl']; [reflexivity | | |].
  - pose proof (eval_lsb_lower base ds' (proj1 Hb) Hr' Hl') as Hlow.
    assert (0 < base ^ (len ds' - 1)).
    { apply Z.pow_pos_nonneg; [lia|]. destruct ds'; [simpl in Hl'; lia|].
      rewrite len_cons. pose proof (len_nonneg ds'). lia. }
    change (eval_lsb base [0]) with (0 + base * 0) in Hv. lia.
  - pose proof (eval_lsb_lower base ds (proj1 Hb) Hr Hl) as Hlow.
    assert (0 < base ^ (len ds - 1)).
    { apply Z.pow_pos_nonneg; [lia|]. destruct ds; [simpl in Hl; lia|].
      rewrite len_cons. pose proof (len_nonneg ds). lia. }
    change (eval_lsb base [0]) with (0 + base * 0) in Hv'. lia.
  - apply (eval_lsb_inj base ds (proj1 Hb) Hr ds' Hr'); [|congruence].
    pose proof (eval_lsb_lower base ds (proj1 Hb) Hr Hl) as Hlow.
    pose proof (eval_lsb_lower base ds' (proj1 Hb) Hr' Hl') as Hlow'.
    pose proof (eval_lsb_upper base ds (proj1 Hb) Hr) as Hup.
    pose proof (eval_lsb_upper base ds' (proj1 Hb) Hr') as Hup'.
    assert (Hds : 1 <= len ds)
      by (destruct ds; [simpl in Hl; lia | rewrite len_cons; pose proof (len_nonneg ds); lia]).
    assert (Hds' : 1 <= len ds')
      by (destruct ds'; [simpl in Hl'; lia | rewrite len_cons; pose proof (len_nonneg ds'); lia]).
    destruct (Z.lt_trichotomy (len ds) (len ds')) as [Hlt | [Heq | Hgt]].
    + pose proof (Hpow (len ds) (len ds' - 1) ltac:(lia) ltac:(lia)). lia.
    + unfold len in Heq. lia.
    + pose proof (Hpow (len ds') (len ds - 1) ltac:(lia) ltac:(lia)). lia.
Qed.

(** The digit string of a number has as many characters as the number has
    bits (one for zero). *)
Lemma digits_lsb_length_2 (fuel : nat) (m : Z) :
  0 <= m < 2 ^ Z.of_nat fuel -> fuel <> O ->
  List.length (digits_lsb fuel 2 m) = S (Z.to_nat (Z.log2 m)).
Proof.
  revert m. induction fuel as [|f IH]; intros m Hm Hf; [congruence|].
  cbn [digits_lsb].
  destruct (Z.eqb_spec (m / 2) 0) as [Hq | Hq].
  - assert (Hm' : m = 0 \/ m = 1).
    { destruct (Z.lt_ge_cases m 2); [lia|].
      assert (1 <= m / 2) by (apply Z.div_le_lower_bound; lia). lia. }
    destruct Hm' as [-> | ->]; reflexivity.
  - pose proof (half_bound 2 m f ltac:(lia) Hm) as Hh.
    assert (Hf' : f <> O) by (intros ->; simpl in Hh; lia).
    simpl List.length. rewrite (IH (m / 2) Hh Hf'). f_equal.
    assert (Hpos : 0 < m / 2) by lia.
    pose proof (Z.log2_spec (m / 2) Hpos) as [Hlo Hhi].
    pose proof (Z.log2_nonneg (m / 2)) as Hnn.
    assert (Hlog : Z.log2 m = Z.log2 (m / 2) + 1).
    { apply Z.log2_unique; [lia|].
      pose proof (Z.div_mod m 2 ltac:(lia)) as Hdm.
      pose proof (Z.mod_pos_bound m 2 ltac:(lia)) as Hmod.
      replace (Z.log2 (m / 2) + 1) with (Z.succ (Z.log2 (m / 2))) by lia.
      rewrite Z.pow_succ_r in Hhi by lia.
      rewrite !Z.pow_succ_r by lia. lia. }
    rewrite Hlog. lia.
Qed.

Lemma to_base_2_length (m : Z) :
  0 <= m -> List.length (to_base 2 m) = S (Z.to_nat (Z.log2 m)).
Proof.
  intros Hm. unfold to_base. rewrite length_map, length_rev.
  apply digits_lsb_length_2; [now apply log2_fuel | lia].
Qed.

(** [bin(n)[2:]] is the digit string in base 2. *)
Lemma bin_slice_2 (n : Z) : 0 <= n -> slice_from 2 (bin n) = to_base 2 n.
Proof.
  intros Hn. unfold bin.
  replace (n <? 0) with false by (symmetry; apply Z.ltb_ge; lia).
  rewrite Z.abs_eq by assumption.
  unfold slice_from. rewrite len_app.
  change (2 <? 0) with false. cbv iota.
  change (len (py "0b")) with 2.
  pose proof (len_nonneg (to_base 2 n)).
  replace (Z.min 2 (2 + len (to_base 2 n))) with 2 by lia.
  reflexivity.
Qed.

Lemma format_X_nonneg (m : Z) : 0 <= m -> format_X m = to_base 16 m.
Proof.
  intros Hm. unfold format_X.
  replace (m <? 0) with false by (symmetry; apply Z.ltb_ge; lia).
  now rewrite Z.abs_eq.
Qed.

(** [number & 0xffffffff] *)
Lemma land_mask (n : Z) : Z.land n 0xffffffff = n mod 2 ^ 32.
Proof. change 0xffffffff with (Z.ones 32). apply Z.land_ones. lia. Qed.

End PyFacts.

(** ** convert_numbers.py: the encoder *)

Module ConvertNumbersFacts.
Import ConvertNumbers PyFacts.

(** The loop stops, after [bits - len(binary_str)] rounds, on the string
    extended with that many ['1']. *)
Lemma sign_extend_spec (fuel : nat) (bits : Z) :
  forall binary_str : str,
    (Z.to_nat (bits - len binary_str) <= fuel)%nat ->
    sign_extend fuel binary_str bits
    = Some (repeat "1"%char (Z.to_nat (bits - len binary_str)) ++ binary_str).
Proof.
  induction fuel as [|f IH]; intros s Hfuel.
  - simpl. destruct (Z.ltb_spec (len s) bits) as [Hlt | Hge]; [lia|].
    replace (Z.to_nat (bits - len s)) with O by lia. reflexivity.
  - cbn [sign_extend]. destruct (Z.ltb_spec (len s) bits) as [Hlt | Hge].
    + rewrite IH by (rewrite len_cons; lia). f_equal.
      rewrite len_cons.
      replace (Z.to_nat (bits - len s)) with (S (Z.to_nat (bits - (len s + 1))))
        by lia.
      cbn [repeat]. rewrite repeat_cons, <- app_assoc. reflexivity.
    + replace (Z.to_nat (bits - len s)) with O by lia. reflexivity.
Qed.

(** Without fuel for all its rounds the loop does not come to an end. *)
Lemma sign_extend_out_of_fuel (fuel : nat) (bits : Z) :
  forall binary_str : str,
    (fuel < Z.to_nat (bits - len binary_str))%nat ->
    sign_extend fuel binary_str bits = None.
Proof.
  induction fuel as [|f IH]; intros s Hfuel; cbn [sign_extend];
    destruct (Z.ltb_spec (len s) bits) as [Hlt | Hge]; try lia.
  - reflexivity.
  - apply IH. rewrite len_cons. lia.
Qed.

Lemma to_twos_complement_spec (fuel : nat) (binary_str : str) (bits : Z) :
  0 < bits -> (Z.to_nat (bits - len binary_str) <= fuel)%nat ->
  to_twos_complement fuel binary_str bits
  = Some (if bits <? len binary_str
          then rightmost (Z.to_nat bits) binary_str
          else left_pad "1" (Z.to_nat bits) binary_str).
Proof.
  intros Hbits Hfuel. unfold to_twos_complement.
  destruct (Z.ltb_spec bits (len binary_str)) as [Hlt | Hge].
  - now rewrite slice_from_neg.
  - rewrite sign_extend_spec by assumption. unfold left_pad, len.
    do 3 f_equal. lia.
Qed.

(** The digits of the low 32 bits of a number. *)
Lemma low_bits_length (n : Z) :
  1 <= len (to_base 2 (Z.land n 0xffffffff)) <= 32.
Proof.
  rewrite land_mask.
  pose proof (Z.mod_pos_bound n (2 ^ 32) ltac:(lia)) as [Hlo Hhi].
  unfold len. rewrite to_base_2_length by assumption.
  pose proof (Z.log2_nonneg (n mod 2 ^ 32)).
  destruct (Z.eq_dec (n mod 2 ^ 32) 0) as [-> | Hne]; [simpl; lia|].
  assert (Z.log2 (n mod 2 ^ 32) < 32) by (apply Z.log2_lt_pow2; lia).
  lia.
Qed.

(** What [convert_to_binary] returns, branch by branch. *)
Lemma convert_to_binary_nonneg (fuel : nat) (n : Z) :
  0 <= n -> convert_to_binary fuel n = Some (rightmost 10 (to_base 2 n)).
Proof.
  intros Hn. unfold convert_to_binary.
  replace (0 <=? n) with true by (symmetry; apply Z.leb_le; lia).
  cbv zeta. rewrite bin_slice_2 by assumption.
  change (-10) with (- (10)). now rewrite slice_from_neg.
Qed.

Lemma convert_to_binary_neg (fuel : nat) (n : Z) :
  n < 0 -> (31 <= fuel)%nat ->
  convert_to_binary fuel n
  = Some (rightmost 10 (left_pad "1" 32 (to_base 2 (n mod 2 ^ 32)))).
Proof.
  intros Hn Hfuel. unfold convert_to_binary.
  replace (0 <=? n) with false by (symmetry; apply Z.leb_gt; lia).
  cbv zeta.
  pose proof (low_bits_length n) as Hlen.
  pose proof (Z.mod_pos_bound n (2 ^ 32) ltac:(lia)) as Hm.
  rewrite bin_slice_2 by (rewrite land_mask; lia).
  rewrite to_twos_complement_spec by lia.
  replace (32 <? len (to_base 2 (Z.land n 0xffffffff))) with false
    by (symmetry; apply Z.ltb_ge; lia).
  change (-10) with (- (10)). rewrite slice_from_neg by lia.
  now rewrite land_mask.
Qed.

Lemma left_pad_length (c : ascii) (width : nat) (s : str) :
  (List.length s <= width)%nat -> List.length (left_pad c width s) = width.
Proof.
  intros Hs. unfold left_pad. rewrite length_app, repeat_length. lia.
Qed.

Lemma rightmost_length {A} (width : nat) (s : list A) :
  List.length (rightmost width s) = Nat.min width (List.length s).
Proof. unfold rightmost. rewrite length_skipn. lia. Qed.

(** With fuel for 31 rounds per number the whole program comes to an end. *)
Lemma convert_to_binary_returns (fuel : nat) (n : Z) :
  (31 <= fuel)%nat -> exists s, convert_to_binary fuel n = Some s.
Proof.
  intros Hfuel. destruct (Z.lt_ge_cases n 0).
  - rewrite convert_to_binary_neg by assumption. now eexists.
  - rewrite convert_to_binary_nonneg by assumption. now eexists.
Qed.

Lemma convert_all_returns (fuel : nat) (numbers : list Z) :
  (31 <= fuel)%nat -> exists r, convert_all fuel numbers = Some r.
Proof.
  intros Hfuel. induction numbers as [|n numbers [[printed results] IH]].
  - now eexists.
  - simpl. destruct (convert_to_binary_returns fuel n Hfuel) as [s ->].
    rewrite IH. now eexists.
Qed.

Lemma main_returns (fuel : nat) (argv : list str) (fs : str -> open_result) :
  (31 <= fuel)%nat -> exists r, main fuel argv fs = Some r.
Proof.
  intros Hfuel. unfold main.
  destruct argv as [|prog [|file_path rest]]; try now eexists.
  destruct (read_file fs file_path) as [printed [|n numbers]]; [now eexists|].
  destruct (convert_all_returns fuel (n :: numbers) Hfuel) as [[p r] ->].
  now eexists.
Qed.

End ConvertNumbersFacts.

Module ConvertNumbersSpec.
Import ConvertNumbers PyFacts ConvertNumbersFacts.

(** C5. For every string [s], [to_twos_complement(s, 32)], given fuel for
    its [32 - len(s)] rounds, returns a string of exactly 32 characters: [s]
    itself when it has 32, the rightmost 32 characters of [s] when it has
    more, and [s] left-padded with ['1'] when it has fewer. *)
Theorem to_twos_complement_32 (s : str) (fuel : nat) :
  (32 - List.length s <= fuel)%nat ->
  exists r,
    to_twos_complement fuel s 32 = Some r /\
    List.length r = 32%nat /\
    (List.length s = 32%nat -> r = s) /\
    ((32 < List.length s)%nat -> r = rightmost 32 s) /\
    ((List.length s < 32)%nat -> r = repeat "1"%char (32 - List.length s) ++ s).
Proof.
  intros Hfuel.
  rewrite to_twos_complement_spec by (unfold len; lia).
  unfold len. destruct (Z.ltb_spec 32 (Z.of_nat (List.length s))) as [Hlt | Hge];
    eexists; (split; [reflexivity|]).
  - change (Z.to_nat 32) with 32%nat. rewrite rightmost_length.
    split; [lia|]. split; [lia|]. split; [reflexivity | lia].
  - change (Z.to_nat 32) with 32%nat. rewrite left_pad_length by lia.
    split; [reflexivity|]. split; [|split; [lia | reflexivity]].
    intros Hs. unfold left_pad. rewrite Hs. reflexivity.
Qed.

Lemma to_twos_complement_32_witness :
  exists r,
    to_twos_complement 29 (py "101") 32 = Some r /\
    List.length r = 32%nat /\
    (List.length (py "101") = 32%nat -> r = py "101") /\
    ((32 < List.length (py "101"))%nat -> r = rightmost 32 (py "101")) /\
    ((List.length (py "101") < 32)%nat ->
     r = repeat "1"%char (32 - List.length (py "101")) ++ py "101").
Proof. apply (to_twos_complement_32 (py "101") 29). simpl. lia. Defined.

(** C1, as amended. Given fuel for the 31 rounds the padding loop can take,
    [convert_to_binary(n)] returns a string of exactly 10 characters for
    every negative [n]; for [n >= 0] the string has as many characters as
    [n] has binary digits (one for zero), at most 10: that is 10 characters
    exactly when [n >= 512]. *)
Theorem convert_to_binary_length (n : Z) (fuel : nat) :
  (31 <= fuel)%nat ->
  exists s,
    convert_to_binary fuel n = Some s /\
    len s = (if n <? 0 then 10 else Z.min 10 (Z.log2 n + 1)) /\
    (0 <= n -> (len s = 10 <-> 512 <= n)).
Proof.
  intros Hfuel. destruct (Z.ltb_spec n 0) as [Hneg | Hpos].
  - rewrite convert_to_binary_neg by assumption. eexists.
    split; [reflexivity|]. split; [|lia].
    unfold len. rewrite rightmost_length, left_pad_length; [reflexivity|].
    pose proof (low_bits_length n) as Hl. rewrite land_mask in Hl.
    unfold len in Hl. lia.
  - rewrite convert_to_binary_nonneg by assumption. eexists.
    split; [reflexivity|].
    assert (Hlen : len (rightmost 10 (to_base 2 n)) = Z.min 10 (Z.log2 n + 1)).
    { unfold len. rewrite rightmost_length, to_base_2_length by assumption.
      pose proof (Z.log2_nonneg n). lia. }
    split; [exact Hlen|]. intros _. rewrite Hlen.
    pose proof (Z.log2_nonneg n).
    destruct (Z.eq_dec n 0) as [-> | Hne]; [simpl; lia|].
    pose proof (Z.log2_le_pow2 n 9 ltac:(lia)) as Hiff.
    change (2 ^ 9) with 512 in Hiff. lia.
Qed.

Lemma convert_to_binary_length_witness :
  exists s,
    convert_to_binary 31 (-5) = Some s /\
    len s = (if -5 <? 0 then 10 else Z.min 10 (Z.log2 (-5) + 1)) /\
    (0 <= -5 -> (len s = 10 <-> 512 <= -5)).
Proof. apply (convert_to_binary_length (-5) 31). lia. Defined.

(** C1 fails as stated: [convert_to_binary(5)] is ["101"], three
    characters long. *)
Lemma convert_to_binary_length_counterexample :
  convert_to_binary 31 5 = Some (py "101") /\
  List.length (py "101") <> 10%nat.
Proof. split; [reflexivity | discriminate]. Qed.

(** C2. For every integer [n], [convert_to_hexadecimal(n)] is the digit
    string of [n mod 2^32] in base 16, in upper case and without padding,
    with ["FF"] before it when [n < 0] and nothing before it otherwise; 255
    gives ["FF"], 0 gives ["0"] and -1 gives ["FFFFFFFFFF"]. *)
Theorem convert_to_hexadecimal_spec :
  (forall n : Z,
      exists digits,
        digit_string 16 digits (n mod 2 ^ 32) /\
        convert_to_hexadecimal n
        = (if n <? 0 then py "FF" else []) ++ digits) /\
  convert_to_hexadecimal 255 = py "FF" /\
  convert_to_hexadecimal 0 = py "0" /\
  convert_to_hexadecimal (-1) = py "FFFFFFFFFF".
Proof.
  split; [|repeat split; vm_compute; reflexivity].
  intros n. exists (to_base 16 (n mod 2 ^ 32)).
  pose proof (Z.mod_pos_bound n (2 ^ 32) ltac:(lia)) as Hm.
  split.
  - apply to_base_digit_string; lia.
  - unfold convert_to_hexadecimal. cbv zeta.
    rewrite land_mask, format_X_nonneg by lia.
    destruct (n <? 0); reflexivity.
Qed.

(** C3 fails on the code: [convert_to_binary(-4294967296)] is
    ["1111111110"], which read in base 2 is 1022, while
    [-4294967296 mod 1024] is 0. The low 32 bits of the number are all zero,
    [bin] gives ["0"], and the loop of [to_twos_complement] puts ['1']
    characters, not zeros, before it. *)
Theorem convert_to_binary_round_trip_fails :
  convert_to_binary 31 (-4294967296) = Some (py "1111111110") /\
  int_base 2 (py "1111111110") = Some 1022 /\
  (-4294967296) mod 1024 = 0.
Proof. repeat split; vm_compute; reflexivity. Qed.

(** C4, as amended. For every [n] with [0 <= n < 1024],
    [convert_to_binary(n)] is the digit string of [n] in base 2, without
    any padding: [convert_to_binary(5)] is ["101"]. *)
Theorem convert_to_binary_small (n : Z) (fuel : nat) :
  0 <= n < 1024 ->
  exists s,
    convert_to_binary fuel n = Some s /\
    digit_string 2 s n /\
    len s = Z.log2 n + 1.
Proof.
  intros [Hlo Hhi]. rewrite convert_to_binary_nonneg by assumption.
  assert (Hlen : (List.length (to_base 2 n) <= 10)%nat).
  { rewrite to_base_2_length by assumption.
    destruct (Z.eq_dec n 0) as [-> | Hne]; [simpl; lia|].
    assert (Z.log2 n < 10) by (apply Z.log2_lt_pow2; lia). lia. }
  exists (to_base 2 n). split.
  - unfold rightmost. replace (List.length (to_base 2 n) - 10)%nat with O by lia.
    reflexivity.
  - split; [apply to_base_digit_string; lia|].
    unfold len. rewrite to_base_2_length by assumption.
    pose proof (Z.log2_nonneg n). lia.
Qed.

Lemma convert_to_binary_small_witness :
  exists s,
    convert_to_binary 0 5 = Some s /\ digit_string 2 s 5 /\ len s = Z.log2 5 + 1.
Proof. apply (convert_to_binary_small 5 0). lia. Defined.

(** C4 fails as stated: [convert_to_binary(5)] is ["101"], not that string
    left-padded with zeros to 10 characters, ["0000000101"]. *)
Lemma convert_to_binary_small_counterexample :
  convert_to_binary 31 5 = Some (py "101") /\
  left_pad "0" 10 (py "101") = py "0000000101" /\
  py "101" <> py "0000000101".
Proof. repeat split; try reflexivity. discriminate. Qed.

(** C6. For every integer [n], [convert_to_binary] returns a string as soon
    as it has fuel for the 31 rounds its loop can take, the same string for
    any larger amount, and [convert_to_hexadecimal], which has no loop,
    returns a non-empty string. *)
Theorem conversions_total (n : Z) :
  exists binary hexadecimal,
    (forall extra : nat, convert_to_binary (31 + extra) n = Some binary) /\
    convert_to_hexadecimal n = hexadecimal /\
    hexadecimal <> [].
Proof.
  assert (Hhex : convert_to_hexadecimal n <> []).
  { unfold convert_to_hexadecimal. cbv zeta.
    pose proof (Z.mod_pos_bound n (2 ^ 32) ltac:(lia)) as Hm.
    rewrite land_mask, format_X_nonneg by lia.
    assert (to_base 16 (n mod 2 ^ 32) <> []).
    { unfold to_base. intros E. apply map_eq_nil in E.
      apply (f_equal (@rev Z)) in E. rewrite rev_involutive in E.
      revert E. apply digits_lsb_nonempty. lia. }
    destruct (n <? 0); [discriminate | assumption]. }
  destruct (Z.lt_ge_cases n 0) as [Hneg | Hpos].
  - eexists; eexists. split; [|split; [reflexivity | exact Hhex]].
    intros extra. apply convert_to_binary_neg; [assumption | lia].
  - eexists; eexists. split; [|split; [reflexivity | exact Hhex]].
    intros extra. now apply convert_to_binary_nonneg.
Qed.

End ConvertNumbersSpec.

(** ** Where the round trip through [convert_to_binary] holds *)

Module RoundTrip.
Import ConvertNumbers PyFacts ConvertNumbersFacts.

Lemma rightmost_map {A B} (f : A -> B) (k : nat) (l : list A) :
  rightmost k (map f l) = map f (rightmost k l).
Proof. unfold rightmost. rewrite length_map. apply skipn_map. Qed.

Lemma rightmost_rev {A} (k : nat) (l : list A) :
  rightmost k (rev l) = rev (firstn k l).
Proof.
  unfold rightmost. rewrite length_rev, skipn_rev. f_equal.
  destruct (Nat.le_gt_cases (List.length l) k) as [Hle | Hgt].
  - replace (List.length l - (List.length l - k))%nat with (List.length l) by lia.
    rewrite !firstn_all2 by lia. reflexivity.
  - f_equal. lia.
Qed.

Lemma rightmost_app {A} (k : nat) (s t : list A) :
  (k <= List.length t)%nat -> rightmost k (s ++ t) = rightmost k t.
Proof.
  intros Ht. unfold rightmost. rewrite skipn_app, length_app.
  replace (List.length s + List.length t - k - List.length s)%nat
    with (List.length t - k)%nat by lia.
  rewrite skipn_all2 by lia. reflexivity.
Qed.

Lemma firstn_Forall {A} (P : A -> Prop) (k : nat) (l : list A) :
  Forall P l -> Forall P (firstn k l).
Proof.
  intros Hl. revert k. induction Hl as [|a l Ha Hl IH]; intros k.
  - rewrite firstn_nil. constructor.
  - destruct k; simpl; constructor; auto.
Qed.

Lemma skipn_repeat_sub {A} (a : A) (k n : nat) :
  skipn k (repeat a n) = repeat a (n - k).
Proof.
  revert k. induction n as [|n IH]; intros k.
  - simpl. now rewrite skipn_nil.
  - destruct k; [reflexivity|]. simpl. apply IH.
Qed.

(** The last ten binary digits of [m] read as [m mod 1024]. *)
Lemma last_ten_digits (m : Z) :
  0 <= m -> int_base 2 (rightmost 10 (to_base 2 m)) = Some (m mod 1024).
Proof.
  intros Hm. unfold to_base.
  set (fuel := S (Z.to_nat (Z.log2 m))).
  rewrite rightmost_map, rightmost_rev, int_base_digits.
  - f_equal. change 1024 with (2 ^ Z.of_nat 10).
    apply digits_lsb_firstn; [lia | now apply log2_fuel].
  - lia.
  - unfold fuel. cbn [digits_lsb firstn]. discriminate.
  - apply firstn_Forall, digits_lsb_range. lia.
Qed.

Lemma mod_1024_low_bits (n : Z) : (n mod 2 ^ 32) mod 1024 = n mod 1024.
Proof.
  apply Z.mod_mod_divide. exists (2 ^ 22). reflexivity.
Qed.

(** X3. The round trip holds for every [n >= 0], and for every negative
    [n] whose low 32 bits are a number of at least ten binary digits (512 or
    more), which covers the negative 32-bit integers: with fuel for the
    loop, the string of [convert_to_binary] read in base 2 is
    [n mod 1024]. *)
Lemma round_trip_holds (n : Z) (fuel : nat) :
  (31 <= fuel)%nat -> 0 <= n \/ 512 <= n mod 2 ^ 32 ->
  exists s, convert_to_binary fuel n = Some s /\ int_base 2 s = Some (n mod 1024).
Proof.
  intros Hfuel Hn. destruct (Z.lt_ge_cases n 0) as [Hneg | Hpos].
  - destruct Hn as [Hn | Hn]; [lia|].
    rewrite convert_to_binary_neg by assumption. eexists. split; [reflexivity|].
    unfold left_pad. rewrite rightmost_app.
    + rewrite last_ten_digits by lia. now rewrite mod_1024_low_bits.
    + rewrite to_base_2_length by lia.
      assert (9 <= Z.log2 (n mod 2 ^ 32)) by (apply Z.log2_le_pow2; lia).
      lia.
  - rewrite convert_to_binary_nonneg by assumption. eexists.
    split; [reflexivity | now apply last_ten_digits].
Qed.

Lemma eval_lsb_app (base : Z) (xs ys : list Z) :
  eval_lsb base (xs ++ ys)
  = eval_lsb base xs + base ^ Z.of_nat (List.length xs) * eval_lsb base ys.
Proof.
  induction xs as [|x xs IH].
  { cbn [app List.length]. change (eval_lsb base []) with 0.
    change (Z.of_nat 0) with 0. rewrite Z.pow_0_r. ring. }
  cbn [app eval_lsb fold_right List.length].
  fold (eval_lsb base (xs ++ ys)). fold (eval_lsb base xs).
  rewrite IH, Nat2Z.inj_succ, Z.pow_succ_r by lia. ring.
Qed.

Lemma eval_lsb_ones (k : nat) : eval_lsb 2 (repeat 1 k) = 2 ^ Z.of_nat k - 1.
Proof.
  induction k as [|k IH]; [reflexivity|].
  cbn [repeat eval_lsb fold_right]. fold (eval_lsb 2 (repeat 1 k)).
  rewrite IH, Nat2Z.inj_succ, Z.pow_succ_r by lia. ring.
Qed.

(** X4. It fails for every other [n]: for a negative [n] whose low 32
    bits are a number below 512, the string of [convert_to_binary] read in
    base 2 is larger than [n mod 1024], by the value of the ['1'] characters
    that were put before its digits. *)
Lemma round_trip_breaks_below_512 (n : Z) (fuel : nat) :
  (31 <= fuel)%nat -> n < 0 -> n mod 2 ^ 32 < 512 ->
  exists s v,
    convert_to_binary fuel n = Some s /\ int_base 2 s = Some v /\
    n mod 1024 < v.
Proof.
  intros Hfuel Hneg Hsmall.
  pose proof (Z.mod_pos_bound n (2 ^ 32) ltac:(lia)) as [Hm0 _].
  set (m := n mod 2 ^ 32) in *.
  rewrite convert_to_binary_neg by assumption. fold m.
  set (ds := digits_lsb (S (Z.to_nat (Z.log2 m))) 2 m).
  assert (Hlen : List.length ds = S (Z.to_nat (Z.log2 m)))
    by (apply digits_lsb_length_2; [now apply log2_fuel | lia]).
  assert (Hlog : Z.log2 m < 9).
  { destruct (Z.eq_dec m 0) as [-> | Hne]; [simpl; lia|].
    apply Z.log2_lt_pow2; lia. }
  pose proof (Z.log2_nonneg m) as Hlog0.
  assert (Hpad : rightmost 10 (left_pad "1" 32 (to_base 2 m))
                 = map digit_char (rev (ds ++ repeat 1 (10 - List.length ds)))).
  { unfold left_pad, rightmost, to_base. fold ds.
    rewrite length_app, repeat_length, length_map, length_rev.
    rewrite skipn_app, repeat_length, skipn_repeat_sub.
    replace (32 - List.length ds + List.length ds - 10 - (32 - List.length ds))%nat
      with O by lia.
    replace (32 - List.length ds - (32 - List.length ds + List.length ds - 10))%nat
      with (10 - List.length ds)%nat by lia.
    rewrite rev_app_distr, map_app, rev_repeat, map_repeat. reflexivity. }
  rewrite Hpad. eexists. eexists. split; [reflexivity|]. split.
  - apply int_base_digits; [lia | |].
    + unfold ds. cbn [digits_lsb app]. discriminate.
    + apply Forall_app. split; [apply digits_lsb_range; lia|].
      apply Forall_forall. intros d Hd. apply repeat_spec in Hd. lia.
  - rewrite eval_lsb_app, eval_lsb_ones.
    unfold ds at 1. rewrite digits_lsb_eval by (try apply log2_fuel; lia).
    replace (n mod 1024) with m
      by (unfold m; rewrite <- mod_1024_low_bits; symmetry;
          apply Z.mod_small; fold m; lia).
    assert (0 < 2 ^ Z.of_nat (List.length ds)) by (apply Z.pow_pos_nonneg; lia).
    assert (2 <= 2 ^ Z.of_nat (10 - List.length ds)).
    { change 2 with (2 ^ 1) at 1. apply Z.pow_le_mono_r; lia. }
    nia.
Qed.

End RoundTrip.

(** ** compute_statistics.py *)

Module DictFacts.
Import ComputeStatistics.

Section Frequency.
Context {F : Type} `{Number F}.

Lemma key_eqb_equiv (x y z : F) :
  key_eqb x y = true -> key_eqb x z = key_eqb y z.
Proof.
  intros Hxy. destruct (key_eqb y z) eqn:Hyz.
  - now apply key_eqb_trans with y.
  - destruct (key_eqb x z) eqn:Hxz; [|reflexivity].
    rewrite <- Hyz. symmetry.
    apply key_eqb_trans with x; [now apply key_eqb_sym | assumption].
Qed.

Lemma key_eqb_equiv_r (x y z : F) :
  key_eqb x y = true -> key_eqb z x = key_eqb z y.
Proof.
  intros Hxy. destruct (key_eqb z y) eqn:Hzy.
  - apply key_eqb_trans with y; [assumption | now apply key_eqb_sym].
  - destruct (key_eqb z x) eqn:Hzx; [|reflexivity].
    rewrite <- Hzy. symmetry. now apply key_eqb_trans with x.
Qed.

Lemma existsb_equiv (keys : list F) (x y : F) :
  key_eqb x y = true ->
  existsb (fun k => key_eqb k x) keys = existsb (fun k => key_eqb k y) keys.
Proof.
  intros Hxy. induction keys as [|k keys IH]; [reflexivity|].
  simpl. now rewrite IH, (key_eqb_equiv_r x y k).
Qed.

Lemma bump_fresh (d : list (F * Z)) (x : F) :
  has_key d x = false -> map (bump x) d = d.
Proof.
  unfold has_key. induction d as [|[k v] d IH]; [reflexivity|].
  simpl. intros Hk. apply orb_false_elim in Hk as [Hk Hd].
  unfold bump at 1. simpl. rewrite Hk. now rewrite IH.
Qed.

Lemma map_fst_bump (d : list (F * Z)) (x : F) :
  map fst (map (bump x) d) = map fst d.
Proof.
  rewrite map_map. apply map_ext. intros [k v]. unfold bump. simpl.
  now destruct (key_eqb k x).
Qed.

(** On a dict with distinct keys a round adds one to the count of the
    key equal to [num], or puts [num] last with count one. *)
Lemma count_one_eq (d : list (F * Z)) (x : F) :
  distinct (map fst d) ->
  count_one d x = if has_key d x then map (bump x) d else d ++ [(x, 1)].
Proof.
  unfold count_one, has_key. induction d as [|[k v] d IH]; [reflexivity|].
  simpl. intros [Hk Hd]. destruct (key_eqb k x) eqn:Hkx; simpl.
  - unfold bump at 1. simpl. rewrite Hkx. f_equal. symmetry.
    apply bump_fresh. unfold has_key.
    now rewrite <- (existsb_equiv _ k x Hkx).
  - unfold bump at 1. simpl. rewrite Hkx. specialize (IH Hd).
    destruct (existsb (fun k0 => key_eqb k0 x) (map fst d)).
    + now rewrite IH.
    + now rewrite IH.
Qed.

Lemma distinct_app (keys : list F) (x : F) :
  distinct keys -> existsb (fun k => key_eqb k x) keys = false ->
  distinct (keys ++ [x]).
Proof.
  induction keys as [|k keys IH]; simpl; [auto|].
  intros [Hk Hd] Hx. apply orb_false_elim in Hx as [Hkx Hx].
  split; [|now apply IH].
  rewrite existsb_app, Hk. simpl.
  destruct (key_eqb x k) eqn:E; [|reflexivity].
  apply key_eqb_sym in E. congruence.
Qed.

Lemma sum_values_app (d d' : list (F * Z)) :
  sum_values (d ++ d') = sum_values d + sum_values d'.
Proof.
  unfold sum_values. induction d as [|[k v] d IH]; simpl; [reflexivity|].
  rewrite IH. lia.
Qed.

Lemma sum_values_bump (d : list (F * Z)) (x : F) :
  distinct (map fst d) -> has_key d x = true ->
  sum_values (map (bump x) d) = sum_values d + 1.
Proof.
  unfold has_key. induction d as [|[k v] d IH]; simpl; [discriminate|].
  intros [Hk Hd] Hx. unfold bump at 1. simpl.
  destruct (key_eqb k x) eqn:Hkx.
  - rewrite bump_fresh
      by (unfold has_key; now rewrite <- (existsb_equiv _ k x Hkx)).
    unfold sum_values. simpl. lia.
  - simpl in Hx. unfold sum_values in *. simpl. rewrite IH by assumption. lia.
Qed.

Lemma occurrences_app (x : F) (l l' : list F) :
  occurrences x (l ++ l') = occurrences x l + occurrences x l'.
Proof.
  unfold occurrences. rewrite filter_app. apply PyFacts.len_app.
Qed.

Lemma occurrences_equiv (x y : F) (l : list F) :
  key_eqb x y = true -> occurrences x l = occurrences y l.
Proof.
  intros Hxy. unfold occurrences. f_equal. apply filter_ext.
  intros z. now apply key_eqb_equiv.
Qed.

Lemma occurrences_pos (x : F) (l : list F) : In x l -> 1 <= occurrences x l.
Proof.
  intros Hx. unfold occurrences, len.
  assert (Hin : In x (filter (key_eqb x) l))
    by (apply filter_In; split; [assumption | apply key_eqb_refl]).
  destruct (filter (key_eqb x) l); [contradiction | simpl; lia].
Qed.

Lemma has_key_In (d : list (F * Z)) (x : F) :
  has_key d x = true -> exists k v, In (k, v) d /\ key_eqb k x = true.
Proof.
  unfold has_key. intros Hx. apply existsb_exists in Hx as (k & Hk & Hkx).
  apply in_map_iff in Hk as ([k' v] & <- & Hin). now exists k', v.
Qed.

Lemma In_has_key (d : list (F * Z)) (k x : F) (v : Z) :
  In (k, v) d -> key_eqb k x = true -> has_key d x = true.
Proof.
  intros Hin Hkx. unfold has_key. apply existsb_exists. exists k.
  split; [|assumption]. apply in_map_iff. now exists (k, v).
Qed.

Lemma counted_step (frequency : list (F * Z)) (seen : list F) (x : F) :
  counted frequency seen -> counted (count_one frequency x) (seen ++ [x]).
Proof.
  intros [Hd Hv Hk Hs]. rewrite count_one_eq by assumption.
  assert (Hocc1 : forall k, occurrences k [x]
                            = if key_eqb k x then 1 else 0).
  { intros k. unfold occurrences. simpl. now destruct (key_eqb k x). }
  destruct (has_key frequency x) eqn:Hx.
  - split.
    + now rewrite map_fst_bump.
    + intros k v Hin. apply in_map_iff in Hin as ([k0 v0] & Hb & Hin).
      destruct (Hv _ _ Hin) as [Hin0 Hv0].
      unfold bump in Hb. simpl in Hb.
      rewrite occurrences_app, Hocc1.
      destruct (key_eqb k0 x) eqn:Hk0; inversion Hb; subst;
        rewrite Hk0; split; try lia; apply in_or_app; now left.
    + intros y Hy. unfold has_key. rewrite map_fst_bump.
      apply in_app_or in Hy as [Hy | [<- | []]]; [now apply Hk | exact Hx].
    + rewrite sum_values_bump by assumption.
      rewrite Hs, PyFacts.len_app. reflexivity.
  - assert (Hfresh : occurrences x seen = 0).
    { unfold occurrences.
      destruct (filter (key_eqb x) seen) as [|y l] eqn:E; [reflexivity|].
      assert (Hy : In y (filter (key_eqb x) seen)) by (rewrite E; now left).
      apply filter_In in Hy as [Hy Hxy].
      destruct (has_key_In _ _ (Hk _ Hy)) as (k & v & Hin & Hky).
      rewrite (In_has_key frequency k x v Hin) in Hx; [discriminate|].
      rewrite <- (key_eqb_equiv_r x y k Hxy) in Hky. exact Hky. }
    split.
    + rewrite map_app. apply distinct_app; assumption.
    + intros k v Hin. rewrite occurrences_app, Hocc1.
      apply in_app_or in Hin as [Hin | [E | []]].
      * destruct (Hv _ _ Hin) as [Hin0 Hv0].
        destruct (key_eqb k x) eqn:Hkx.
        -- rewrite (In_has_key frequency k x v Hin Hkx) in Hx. discriminate.
        -- split; [apply in_or_app; now left | lia].
      * inversion E; subst. rewrite key_eqb_refl, Hfresh.
        split; [apply in_or_app; right; now left | reflexivity].
    + intros y Hy. unfold has_key. rewrite map_app, existsb_app.
      apply in_app_or in Hy as [Hy | [<- | []]].
      * apply orb_true_iff. left. now apply Hk.
      * simpl. rewrite key_eqb_refl. apply orb_true_r.
    + rewrite sum_values_app, Hs, PyFacts.len_app.
      unfold sum_values. simpl. reflexivity.
Qed.

Lemma counted_loop (data seen : list F) (frequency : list (F * Z)) :
  counted frequency seen ->
  counted (fold_left count_one data frequency) (seen ++ data).
Proof.
  revert seen frequency. induction data as [|x data IH]; intros seen d Hc.
  - now rewrite app_nil_r.
  - simpl. replace (seen ++ x :: data) with ((seen ++ [x]) ++ data)
      by (rewrite <- app_assoc; reflexivity).
    apply IH. now apply counted_step.
Qed.

Lemma counted_frequency (data : list F) :
  counted (count_frequency data) data.
Proof.
  apply (counted_loop data [] []).
  split; simpl; try tauto; try reflexivity; try discriminate.
Qed.

End Frequency.
End DictFacts.

Module ComputeStatisticsSpec.
Import ComputeStatistics DictFacts ExactNumber.

Section Mode.
Context {F : Type} `{Number F}.

Lemma counts_positive (d : list (F * Z)) (data : list F) :
  counted d data -> forall k v, In (k, v) d -> 1 <= v.
Proof.
  intros Hc k v Hin. destruct (counted_values _ _ Hc _ _ Hin) as [Hk ->].
  now apply occurrences_pos.
Qed.

Lemma len_le_sum_values (d : list (F * Z)) :
  (forall k v, In (k, v) d -> 1 <= v) ->
  len d <= sum_values d /\
  (len d = sum_values d -> forall k v, In (k, v) d -> v = 1).
Proof.
  induction d as [|[k v] d IH]; intros Hpos.
  - split; [reflexivity | intros _ k v []].
  - destruct IH as [IH1 IH2]; [intros; eapply Hpos; right; eassumption|].
    assert (1 <= v) by (eapply Hpos; now left).
    rewrite PyFacts.len_cons. unfold sum_values in *. simpl.
    split; [lia|]. intros E k' v' [Heq | Hin].
    + inversion Heq; subst. lia.
    + eapply IH2; [lia | eassumption].
Qed.

Lemma sum_values_ones (d : list (F * Z)) :
  (forall k v, In (k, v) d -> v = 1) -> sum_values d = len d.
Proof.
  induction d as [|[k v] d IH]; intros Hone; [reflexivity|].
  rewrite PyFacts.len_cons. unfold sum_values in *. simpl.
  rewrite IH by (intros; eapply Hone; right; eassumption).
  rewrite (Hone k v) by now left. lia.
Qed.

Lemma fold_max_spec (vs : list Z) (v : Z) :
  In (fold_left Z.max vs v) (v :: vs) /\
  forall w, In w (v :: vs) -> w <= fold_left Z.max vs v.
Proof.
  revert v. induction vs as [|u vs IH]; intros v.
  - simpl. split; [now left | intros w [<- | []]; lia].
  - simpl fold_left. destruct (IH (Z.max v u)) as [Hin Hmax]. split.
    + destruct Hin as [E | Hin]; [|right; now right].
      rewrite <- E. destruct (Z.max_spec v u) as [[_ ->] | [_ ->]];
        [right; now left | now left].
    + intros w Hw.
      assert (Z.max v u <= fold_left Z.max vs (Z.max v u))
        by (apply Hmax; now left).
      destruct Hw as [<- | [<- | Hw]]; [lia | lia |].
      apply Hmax. now right.
Qed.

Lemma max_default_0_spec (vs : list Z) :
  vs <> [] ->
  In (max_default_0 vs) vs /\ forall w, In w vs -> w <= max_default_0 vs.
Proof.
  destruct vs as [|v vs]; [congruence|]. intros _. apply fold_max_spec.
Qed.

Lemma filter_all {A} (f : A -> bool) (l : list A) :
  (forall x, In x l -> f x = true) -> filter f l = l.
Proof.
  induction l as [|a l IH]; intros Hall; [reflexivity|].
  simpl. rewrite (Hall a) by now left.
  rewrite IH; [reflexivity|]. intros x Hx. apply Hall. now right.
Qed.

(** C10. For every non-empty list of numbers (NaN apart, on which the
    equality of dict keys is no equivalence), [compute_mode] raises no
    error; it returns ["NA"] if and only if every element of the list
    occurs exactly once, and otherwise an element of the list that no
    element occurs more often than. *)
Theorem compute_mode_spec (data : list F) :
  data <> [] ->
  exists r,
    compute_mode data = Return r /\
    (r = NA <-> forall x, In x data -> occurrences x data = 1) /\
    (forall m, r = Mode m ->
               In m data /\
               forall y, In y data -> occurrences y data <= occurrences m data).
Proof.
  intros Hne. unfold compute_mode. cbv zeta.
  pose proof (counted_frequency data) as Hc.
  set (d := count_frequency data) in *.
  set (mx := max_default_0 (map snd d)).
  set (kept := filter (fun item : F * Z => snd item =? mx) d).
  pose proof (counts_positive d data Hc) as Hpos.
  destruct (len_le_sum_values d Hpos) as [Hle Hones].
  rewrite (counted_sum _ _ Hc) in Hle, Hones.
  assert (Hkept : len kept <= len d)
    by (unfold len, kept; pose proof (filter_length_le (fun item : F * Z => snd item =? mx) d); lia).
  assert (Hd : map snd d <> []).
  { destruct data as [|x data]; [congruence|].
    pose proof (counted_keys _ _ Hc x (or_introl eq_refl)) as Hx.
    apply has_key_In in Hx as (k & v & Hin & _).
    destruct d; [contradiction | discriminate]. }
  destruct (max_default_0_spec (map snd d) Hd) as [Hmx_in Hmx_max].
  fold mx in Hmx_in, Hmx_max.
  assert (Hocc : forall x, In x data ->
                   exists k v, In (k, v) d /\ occurrences x data = v).
  { intros x Hx.
    destruct (has_key_In _ _ (counted_keys _ _ Hc x Hx)) as (k & v & Hin & Hkx).
    exists k, v. split; [assumption|].
    destruct (counted_values _ _ Hc _ _ Hin) as [_ ->].
    symmetry. now apply occurrences_equiv. }
  assert (Hsingle : (forall x, In x data -> occurrences x data = 1) ->
                    len data = len (map fst kept)).
  { intros Hall.
    assert (Hone : forall k v, In (k, v) d -> v = 1).
    { intros k v Hin. destruct (counted_values _ _ Hc _ _ Hin) as [Hk ->].
      now apply Hall. }
    assert (Hmx1 : mx = 1).
    { apply in_map_iff in Hmx_in as ([k v] & E & Hin). simpl in E. subst v.
      now apply (Hone k). }
    unfold kept. rewrite filter_all.
    - unfold len. rewrite length_map. fold (len d).
      rewrite <- (sum_values_ones d Hone). symmetry. apply (counted_sum _ _ Hc).
    - intros [k v] Hin. simpl. rewrite (Hone k v Hin), Hmx1. reflexivity. }
  destruct (Z.eqb_spec (len data) (len (map fst kept))) as [Heq | Hneq].
  - exists NA. split; [reflexivity|]. split; [|discriminate].
    split; [intros _ | reflexivity].
    intros x Hx. destruct (Hocc x Hx) as (k & v & Hin & ->).
    apply (Hones) with k; [|assumption].
    unfold len in *. rewrite length_map in Heq. lia.
  - assert (Hnonempty : exists m v rest, kept = (m, v) :: rest).
    { apply in_map_iff in Hmx_in as ([k v] & E & Hin). simpl in E. subst v.
      assert (Hk : In (k, mx) kept).
      { apply filter_In. split; [assumption | apply Z.eqb_refl]. }
      destruct kept as [|[m v] rest]; [contradiction|]. now exists m, v, rest. }
    destruct Hnonempty as (m & v & rest & Ekept).
    exists (Mode m). rewrite Ekept. split; [reflexivity|]. split.
    + split; [discriminate|]. intros Hall. exfalso. apply Hneq.
      now apply Hsingle.
    + intros m' E. inversion E; subst m'. clear E.
      assert (Hm : In (m, v) kept) by (rewrite Ekept; now left).
      apply filter_In in Hm as [Hm Hv]. simpl in Hv.
      apply Z.eqb_eq in Hv. subst v.
      destruct (counted_values _ _ Hc _ _ Hm) as [Hin Hmx].
      split; [assumption|]. intros y Hy.
      destruct (Hocc y Hy) as (k & v & Hkv & ->). rewrite <- Hmx.
      apply Hmx_max. apply in_map_iff. now exists (k, v).
Qed.

End Mode.

Lemma compute_mode_spec_witness :
  exists r,
    compute_mode [1 # 1; 2 # 1; 2 # 1]%Q = Return r /\
    (r = NA <->
     forall x, In x [1 # 1; 2 # 1; 2 # 1]%Q ->
               occurrences x [1 # 1; 2 # 1; 2 # 1]%Q = 1) /\
    (forall m, r = Mode m ->
               In m [1 # 1; 2 # 1; 2 # 1]%Q /\
               forall y, In y [1 # 1; 2 # 1; 2 # 1]%Q ->
                         occurrences y [1 # 1; 2 # 1; 2 # 1]%Q
                         <= occurrences m [1 # 1; 2 # 1; 2 # 1]%Q).
Proof. apply (compute_mode_spec [1 # 1; 2 # 1; 2 # 1]%Q). discriminate. Defined.

End ComputeStatisticsSpec.

Module VarianceSpec.
Import ComputeStatistics ExactNumber.

Section Variance.
Context {F : Type} `{Number F}.

(** On an empty list the variance is 0. *)
Lemma compute_variance_empty (mean : F) :
  compute_variance [] mean = Return (of_int 0).
Proof. reflexivity. Qed.

(** On two elements or more, and when no square overflows, it is the sum
    of the squared deviations divided by [len(data) - 1]. *)
Lemma compute_variance_many (data : list F) (mean total : F) :
  2 <= len data ->
  sum_squares (of_int 0) data mean = Return total ->
  compute_variance data mean = Return (div total (of_int (len data - 1))).
Proof.
  intros Hlen Hsum. unfold compute_variance.
  destruct data as [|x data]; [unfold len in Hlen; simpl in Hlen; lia|].
  rewrite Hsum. unfold bind, truediv.
  destruct (Z.eqb_spec (len (x :: data) - 1) 0); [lia | reflexivity].
Qed.

(** On one element it raises: the divisor [len(data) - 1] is 0. *)
Lemma compute_variance_one (x mean : F) :
  compute_variance [x] mean
  = match pow_2 (sub x mean) with
    | Return _ => Raise ZeroDivisionError
    | Raise e => Raise e
    end.
Proof.
  unfold compute_variance, sum_squares. destruct (pow_2 (sub x mean)); reflexivity.
Qed.

End Variance.

(** C7 fails on the code: on a list of one element [compute_variance]
    raises an error, whatever the numbers are; with exact numbers,
    [compute_variance([5], 5)] raises [ZeroDivisionError], and so does the
    whole program on a file that holds the one line [5]. *)
Theorem compute_variance_single_element :
  (forall (F : Type) (N : Number F) (x mean : F),
      exists e, compute_variance [x] mean = Raise e) /\
  compute_variance [5 # 1]%Q (5 # 1)%Q = Raise ZeroDivisionError /\
  snd (ComputeStatistics.main (F := Q) [py "prog"; py "data.txt"]
         (one_file (py "5")))
  = Uncaught ZeroDivisionError.
Proof.
  split; [|split; vm_compute; reflexivity].
  intros F N x mean. rewrite compute_variance_one.
  destruct (pow_2 (sub x mean)); eexists; reflexivity.
Qed.

End VarianceSpec.

Module ExitStatusSpec.
Import ExactNumber.

Lemma convert_read_lines_none (lines : list str) :
  Forall (fun line => int (strip line) = None) lines ->
  snd (ConvertNumbers.read_lines lines) = [].
Proof.
  induction 1 as [|line lines Hline _ IH]; [reflexivity|].
  simpl. destruct (ConvertNumbers.read_lines lines) as [printed numbers].
  rewrite Hline. exact IH.
Qed.

Lemma statistics_read_lines_none {F} `{ComputeStatistics.Number F}
  (lines : list str) :
  Forall (fun line => ComputeStatistics.float (strip line) = None) lines ->
  snd (ComputeStatistics.read_lines lines) = [].
Proof.
  induction 1 as [|line lines Hline _ IH]; [reflexivity|].
  simpl. destruct (ComputeStatistics.read_lines lines) as [printed numbers].
  rewrite Hline. exact IH.
Qed.

(** C8, as amended. When the input file cannot be opened (it is not found,
    or may not be read), the conversion program and the statistics program
    end with exit status 2, the very status they end with when the file can
    be read and none of its lines is valid data. *)
Theorem unreadable_and_no_data_exit_2 {F} `{ComputeStatistics.Number F}
  (fuel : nat) (prog file_path : str) (rest : list str)
  (fs : str -> open_result) :
  (cannot_open fs file_path \/ no_line_parses int fs file_path ->
   exists printed,
     ConvertNumbers.main fuel (prog :: file_path :: rest) fs
     = Some (printed, Exit 2)) /\
  (cannot_open fs file_path \/
   no_line_parses ComputeStatistics.float fs file_path ->
   exists printed,
     ComputeStatistics.main (prog :: file_path :: rest) fs
     = (printed, Exit 2)).
Proof.
  split; intros Hfile.
  - assert (Hnone : snd (ConvertNumbers.read_file fs file_path) = []).
    { unfold ConvertNumbers.read_file.
      destruct Hfile as [[-> | ->] | (content & -> & Hlines)];
        [reflexivity | reflexivity | now apply convert_read_lines_none]. }
    unfold ConvertNumbers.main.
    destruct (ConvertNumbers.read_file fs file_path) as [printed numbers].
    simpl in Hnone. subst numbers. eexists. reflexivity.
  - assert (Hnone : snd (ComputeStatistics.read_file fs file_path) = []).
    { unfold ComputeStatistics.read_file.
      destruct Hfile as [[-> | ->] | (content & -> & Hlines)];
        [reflexivity | reflexivity | now apply statistics_read_lines_none]. }
    unfold ComputeStatistics.main.
    destruct (ComputeStatistics.read_file fs file_path) as [printed data].
    simpl in Hnone. subst data. eexists. reflexivity.
Qed.

Lemma unreadable_and_no_data_exit_2_witness :
  (exists printed,
      ConvertNumbers.main 31 [py "prog"; py "secret.txt"] (one_file (py "abc"))
      = Some (printed, Exit 2)) /\
  (exists printed,
      ComputeStatistics.main (F := Q) [py "prog"; py "data.txt"]
        (one_file (py "abc"))
      = (printed, Exit 2)).
Proof.
  split.
  - apply (unreadable_and_no_data_exit_2 (F := Q) 31 (py "prog")
             (py "secret.txt") [] (one_file (py "abc"))).
    left. right. reflexivity.
  - apply (unreadable_and_no_data_exit_2 (F := Q) 31 (py "prog")
             (py "data.txt") [] (one_file (py "abc"))).
    right. exists (py "abc"). split; [reflexivity|].
    repeat constructor.
Defined.

(** C8 fails as stated: with a file that is missing and with a file whose
    only line is [abc], both programs end with the same exit status, 2. *)
Lemma exit_status_counterexample :
  option_map (fun run => exit_status (snd run))
    (ConvertNumbers.main 31 [py "prog"; py "missing.txt"] (one_file (py "abc")))
  = option_map (fun run => exit_status (snd run))
      (ConvertNumbers.main 31 [py "prog"; py "data.txt"] (one_file (py "abc"))) /\
  exit_status
    (snd (ComputeStatistics.main (F := Q) [py "prog"; py "missing.txt"]
            (one_file (py "abc"))))
  = exit_status
      (snd (ComputeStatistics.main (F := Q) [py "prog"; py "data.txt"]
              (one_file (py "abc")))) /\
  cannot_open (one_file (py "abc")) (py "missing.txt") /\
  no_line_parses int (one_file (py "abc")) (py "data.txt") /\
  no_line_parses (ComputeStatistics.float (F := Q))
    (one_file (py "abc")) (py "data.txt").
Proof.
  split; [vm_compute; reflexivity|]. split; [vm_compute; reflexivity|].
  split; [left; reflexivity|].
  split; (exists (py "abc"); split; [reflexivity | repeat constructor]).
Qed.

End ExitStatusSpec.

(** ** word_count.py *)

Module WordCountSpec.
Import WordCount ExactNumber.

Section Sorting.
Context {A : Type} (before : A -> A -> bool).

Lemma insert_by_perm (x : A) (l : list A) :
  Permutation (insert_by before x l) (x :: l).
Proof.
  induction l as [|y l IH]; simpl; [reflexivity|].
  destruct (before y x); [|reflexivity].
  rewrite IH. apply perm_swap.
Qed.

Lemma sorted_by_perm (l : list A) : Permutation (sorted_by before l) l.
Proof.
  induction l as [|x l IH]; simpl; [reflexivity|].
  rewrite insert_by_perm. now constructor.
Qed.
End Sorting.

Lemma insert_descending (x : str * Z) (l : list (str * Z)) :
  descending l -> descending (insert_by by_count x l).
Proof.
  unfold descending. induction 1 as [|y l Hl IH Hy]; simpl.
  - repeat constructor.
  - unfold by_count at 1. destruct (Z.ltb_spec (snd x) (snd y)) as [Hlt | Hge].
    + constructor; [exact IH|].
      eapply Permutation_Forall;
        [symmetry; apply insert_by_perm|].
      constructor; [lia | assumption].
    + constructor; [now constructor|].
      constructor; [lia|].
      eapply Forall_impl; [|exact Hy]. simpl. intros z Hz. lia.
Qed.

Lemma sorted_items_descending (word_count : list (str * Z)) :
  descending (sorted_items word_count).
Proof.
  unfold sorted_items. induction word_count as [|x l IH]; simpl.
  - constructor.
  - now apply insert_descending.
Qed.

Lemma total_perm (l l' : list (str * Z)) :
  Permutation l l' -> total l = total l'.
Proof.
  unfold total. induction 1; simpl; lia.
Qed.

Lemma print_pairs_total (items : list (str * Z)) (sum_of_words : Z) :
  snd (print_pairs items sum_of_words) = sum_of_words + total items.
Proof.
  revert sum_of_words. induction items as [|[word count] items IH]; intros acc.
  - unfold total. simpl. lia.
  - simpl. specialize (IH (acc + count)).
    destruct (print_pairs items (acc + count)) as [printed sum].
    simpl in *. rewrite IH. unfold total. simpl. lia.
Qed.

Lemma print_pairs_printed (items : list (str * Z)) (sum_of_words : Z) :
  fst (print_pairs items sum_of_words)
  = map (fun item => Pair (fst item) (snd item)) items.
Proof.
  revert sum_of_words. induction items as [|[word count] items IH]; intros acc.
  - reflexivity.
  - simpl. specialize (IH (acc + count)).
    destruct (print_pairs items (acc + count)) as [printed sum].
    simpl in *. now rewrite IH.
Qed.

(** A key of the dict stays in it. *)
Lemma dict_set_keeps (d : list (str * Z)) (k x : str) (n : Z) :
  In k (map fst d) -> In k (map fst (dict_set key_eqb d x n)).
Proof.
  induction d as [|[k' v'] d IH]; simpl; [tauto|].
  destruct (key_eqb k' x); simpl; intros [-> | Hin]; auto.
Qed.

Lemma count_line_keeps (k : str) (words : list str) :
  forall word_count,
    In k (map fst word_count) ->
    In k (map fst (snd (count_line words word_count))).
Proof.
  induction words as [|word words IH]; intros d Hk; [assumption|].
  simpl. destruct (isalpha word).
  - apply IH. now apply dict_set_keeps.
  - specialize (IH d Hk). destruct (count_line words d). assumption.
Qed.

Lemma count_lines_keeps (k : str) (lines : list str) :
  forall word_count,
    In k (map fst word_count) ->
    In k (map fst (snd (count_lines lines word_count))).
Proof.
  induction lines as [|line lines IH]; intros d Hk; [assumption|].
  simpl. destruct (strip line).
  - apply IH. now apply dict_set_keeps.
  - pose proof (count_line_keeps k (split_ws line) d Hk) as Hline.
    destruct (count_line (split_ws line) d) as [printed d'].
    specialize (IH d' Hline).
    destruct (count_lines lines d') as [printed' d'']. assumption.
Qed.

(** C9. For every input text, the run of the program on a file that holds
    it prints the pairs of the dict that [count_words] returns, the counter
    of ["(Blank)"] among them, in descending order of count; the Grand
    Total is the sum of all these counts; and the pairs written to the
    results file are in descending order of count too. *)
Theorem grand_total_and_order (prog file_path : str) (rest : list str)
  (fs : str -> open_result) (text : str) :
  fs file_path = Opened text ->
  exists printed r,
    main (prog :: file_path :: rest) fs = (printed, Done r) /\
    grand_total r = total (snd (count_words text)) /\
    In (py "(Blank)") (map fst (snd (count_words text))) /\
    Permutation (pairs r) (snd (count_words text)) /\
    descending (pairs r) /\
    descending (written r) /\
    exists before after,
      printed = before ++ map (fun item => Pair (fst item) (snd item)) (pairs r)
                  ++ after.
Proof.
  intros Hfs. unfold main, read_file. rewrite Hfs.
  pose proof (count_lines_keeps (py "(Blank)") (split_on "010" text)
                [(py "(Blank)", 0)] (or_introl eq_refl)) as Hblank.
  fold (count_words text) in Hblank.
  destruct (count_words text) as [printed1 word_count]. simpl snd in *.
  pose proof (print_pairs_total (sorted_items word_count) 0) as Hsum.
  pose proof (print_pairs_printed (sorted_items word_count) 0) as Hprinted.
  destruct (print_pairs (sorted_items word_count) 0) as [printed2 sum_of_words].
  simpl in Hsum, Hprinted. subst.
  eexists. eexists. split; [reflexivity|]. simpl.
  split; [apply total_perm, sorted_by_perm|].
  split; [assumption|].
  split; [apply sorted_by_perm|].
  split; [apply sorted_items_descending|].
  split; [apply sorted_items_descending|].
  exists printed1. eexists. reflexivity.
Qed.

Lemma grand_total_and_order_witness :
  exists printed r,
    main [py "prog"; py "data.txt"] (one_file (py "to be or not to be"))
    = (printed, Done r) /\
    grand_total r = total (snd (count_words (py "to be or not to be"))) /\
    In (py "(Blank)") (map fst (snd (count_words (py "to be or not to be")))) /\
    Permutation (pairs r) (snd (count_words (py "to be or not to be"))) /\
    descending (pairs r) /\
    descending (written r) /\
    exists before after,
      printed = before ++ map (fun item => Pair (fst item) (snd item)) (pairs r)
                  ++ after.
Proof.
  apply (grand_total_and_order (py "prog") (py "data.txt") []
           (one_file (py "to be or not to be")) (py "to be or not to be")).
  reflexivity.
Defined.

End WordCountSpec.

(** ** Runs on concrete inputs *)

Module Examples.
Import ExactNumber.

Example binary_of_5 : ConvertNumbers.convert_to_binary 0 5 = Some (py "101").
Proof. reflexivity. Qed.

Example binary_of_minus_5 :
  ConvertNumbers.convert_to_binary 31 (-5) = Some (py "1111111011").
Proof. vm_compute. reflexivity. Qed.

Example binary_of_1500 :
  ConvertNumbers.convert_to_binary 0 1500 = Some (py "0111011100").
Proof. vm_compute. reflexivity. Qed.

Example binary_out_of_fuel : ConvertNumbers.convert_to_binary 30 (-4294967296) = None.
Proof. vm_compute. reflexivity. Qed.

Example hexadecimal_of_minus_5 :
  ConvertNumbers.convert_to_hexadecimal (-5) = py "FFFFFFFFFB".
Proof. vm_compute. reflexivity. Qed.

Example int_literals :
  int (py " -1_0 ") = Some (-10) /\ int (py "abc") = None /\
  int (py "3.5") = None /\ int (py "") = None /\ int (py "1__0") = None.
Proof. vm_compute. repeat split. Qed.

(** The file of the lines [10], [-5], [abc] and [3.5]: two lines are
    skipped, two numbers are converted, in the order of the file. *)
Example conversion_run :
  ConvertNumbers.main 31 [py "prog"; py "data.txt"]
    (one_file (py ("10" ++ nl ++ "-5" ++ nl ++ "abc" ++ nl ++ "3.5" ++ nl)))
  = Some
      ([ConvertNumbers.InvalidDataSkipped (py "abc");
        ConvertNumbers.InvalidDataSkipped (py "3.5");
        ConvertNumbers.Converted 10 (py "1010") (py "A");
        ConvertNumbers.Converted (-5) (py "1111111011") (py "FFFFFFFFFB");
        ConvertNumbers.ResultsWritten],
       Done
         [{| ConvertNumbers.number := 10;
             ConvertNumbers.binary := py "1010";
             ConvertNumbers.hexadecimal := py "A" |};
          {| ConvertNumbers.number := -5;
             ConvertNumbers.binary := py "1111111011";
             ConvertNumbers.hexadecimal := py "FFFFFFFFFB" |}]).
Proof. vm_compute. reflexivity. Qed.

Example mode_of_a_tie :
  ComputeStatistics.compute_mode [3 # 1; 1 # 1; 3 # 1; 1 # 1]%Q
  = Return (ComputeStatistics.Mode (3 # 1)%Q).
Proof. vm_compute. reflexivity. Qed.

Example word_count_run :
  snd (WordCount.main [py "prog"; py "data.txt"]
         (one_file (py ("the cat" ++ nl ++ nl ++ "the dog x1 the" ++ nl))))
  = Done
      {| WordCount.pairs :=
           [(py "the", 3); (py "(Blank)", 2); (py "cat", 1); (py "dog", 1)];
         WordCount.grand_total := 7;
         WordCount.written :=
           [(py "Grand Total", 7); (py "the", 3); (py "(Blank)", 2);
            (py "cat", 1); (py "dog", 1)] |}.
Proof. vm_compute. reflexivity. Qed.

End Examples.

(** * Further properties of the programs *)

(** ** convert_numbers.py: the conversions *)

Module ConversionFacts.
Import ConvertNumbers PyFacts ConvertNumbersFacts RoundTrip.

Lemma skipn_Forall {A} (P : A -> Prop) (k : nat) (l : list A) :
  Forall P l -> Forall P (skipn k l).
Proof.
  intros Hl. revert k. induction Hl as [|a l Ha Hl IH]; intros k.
  - rewrite skipn_nil. constructor.
  - destruct k; simpl; [now constructor | apply IH].
Qed.

Lemma digit_char_binary (d : Z) :
  0 <= d < 2 -> digit_char d = "0"%char \/ digit_char d = "1"%char.
Proof.
  intros Hd. assert (E : d = 0 \/ d = 1) by lia.
  destruct E as [-> | ->]; [now left | now right].
Qed.

Lemma to_base_2_binary (m : Z) :
  Forall (fun c => c = "0"%char \/ c = "1"%char) (to_base 2 m).
Proof.
  unfold to_base. apply Forall_map, Forall_rev.
  eapply Forall_impl; [|apply digits_lsb_range; lia].
  intros d Hd. now apply digit_char_binary.
Qed.

(** The digits of a number between two powers of the base. *)
Lemma to_base_length (base m k : Z) :
  2 <= base -> 1 <= k -> base ^ (k - 1) <= m < base ^ k ->
  len (to_base base m) = k.
Proof.
  intros Hb Hk [Hlo Hhi].
  assert (Hpos : 0 < m).
  { assert (0 < base ^ (k - 1)) by (apply Z.pow_pos_nonneg; lia). lia. }
  unfold to_base, len. rewrite length_map, length_rev.
  set (fuel := S (Z.to_nat (Z.log2 m))).
  pose proof (log2_fuel m ltac:(lia)) as Hfuel. fold fuel in Hfuel.
  pose proof (digits_lsb_range fuel base m Hb) as Hrange.
  pose proof (digits_lsb_eval fuel base m Hb Hfuel) as Heval.
  destruct (digits_lsb_last fuel base m Hb Hfuel ltac:(unfold fuel; lia))
    as [[H0 _] | Hlast]; [lia|].
  pose proof (eval_lsb_lower base _ Hb Hrange Hlast) as Hlow.
  pose proof (eval_lsb_upper base _ Hb Hrange) as Hup.
  rewrite Heval in Hlow, Hup. unfold len in Hlow, Hup.
  set (n := Z.of_nat (List.length (digits_lsb fuel base m))) in *.
  assert (Hn : 1 <= n).
  { unfold n. destruct (digits_lsb fuel base m); [simpl in Hlast; lia|].
    simpl List.length. lia. }
  assert (Hpow : forall a b, 0 <= a <= b -> base ^ a <= base ^ b)
    by (intros; apply Z.pow_le_mono_r; lia).
  destruct (Z.lt_trichotomy n k) as [Hlt | [Heq | Hgt]]; [|exact Heq|].
  - pose proof (Hpow n (k - 1) ltac:(lia)). lia.
  - pose proof (Hpow k (n - 1) ltac:(lia)). lia.
Qed.

Lemma to_base_length_le (base m k : Z) :
  2 <= base -> 1 <= k -> 0 <= m < base ^ k -> len (to_base base m) <= k.
Proof.
  intros Hb Hk [Hlo Hhi].
  destruct (Z.eq_dec m 0) as [-> | Hne]; [change (len (to_base base 0)) with 1; lia|].
  unfold to_base, len. rewrite length_map, length_rev.
  set (fuel := S (Z.to_nat (Z.log2 m))).
  pose proof (log2_fuel m ltac:(lia)) as Hfuel. fold fuel in Hfuel.
  pose proof (digits_lsb_range fuel base m Hb) as Hrange.
  pose proof (digits_lsb_eval fuel base m Hb Hfuel) as Heval.
  destruct (digits_lsb_last fuel base m Hb Hfuel ltac:(unfold fuel; lia))
    as [[H0 _] | Hlast]; [lia|].
  pose proof (eval_lsb_lower base _ Hb Hrange Hlast) as Hlow.
  rewrite Heval in Hlow. unfold len in Hlow.
  set (n := Z.of_nat (List.length (digits_lsb fuel base m))) in *.
  destruct (Z.le_gt_cases n k) as [Hle | Hgt]; [exact Hle|].
  assert (base ^ k <= base ^ (n - 1)) by (apply Z.pow_le_mono_r; lia). lia.
Qed.

(** The last ten digits of two numbers of ten binary digits or more that
    agree modulo 1024. *)
Lemma last_ten_agree (m m' : Z) :
  512 <= m -> 512 <= m' -> m mod 1024 = m' mod 1024 ->
  rightmost 10 (to_base 2 m) = rightmost 10 (to_base 2 m').
Proof.
  intros Hm Hm' Hmod. unfold to_base.
  rewrite !rightmost_map, !rightmost_rev. do 2 f_equal.
  assert (Hten : forall x, 512 <= x ->
            List.length (firstn 10 (digits_lsb (S (Z.to_nat (Z.log2 x))) 2 x))
            = 10%nat).
  { intros x Hx. rewrite length_firstn, digits_lsb_length_2;
      [|apply log2_fuel; lia | lia].
    assert (9 <= Z.log2 x) by (apply Z.log2_le_pow2; lia). lia. }
  apply (eval_lsb_inj 2); try lia.
  - apply firstn_Forall, digits_lsb_range. lia.
  - apply firstn_Forall, digits_lsb_range. lia.
  - now rewrite !Hten.
  - rewrite !digits_lsb_firstn by (try apply log2_fuel; lia). exact Hmod.
Qed.

(** The string [convert_to_binary] cuts its ten characters from. *)
Lemma convert_to_binary_ten (fuel : nat) (n : Z) :
  (31 <= fuel)%nat -> 512 <= n \/ (n < 0 /\ 512 <= n mod 2 ^ 32) ->
  convert_to_binary fuel n
  = Some (rightmost 10 (to_base 2 (if n <? 0 then n mod 2 ^ 32 else n))).
Proof.
  intros Hfuel [Hn | [Hn Hm]].
  - replace (n <? 0) with false by (symmetry; apply Z.ltb_ge; lia).
    apply convert_to_binary_nonneg. lia.
  - replace (n <? 0) with true by (symmetry; apply Z.ltb_lt; lia).
    rewrite convert_to_binary_neg by assumption. f_equal.
    unfold left_pad. apply rightmost_app.
    rewrite to_base_2_length by lia.
    assert (9 <= Z.log2 (n mod 2 ^ 32)) by (apply Z.log2_le_pow2; lia). lia.
Qed.

End ConversionFacts.

Module ConversionProperties.
Import ConvertNumbers PyFacts ConvertNumbersFacts RoundTrip ConversionFacts.

(** X1. With fuel for its loop, [convert_to_binary] returns, for every
    integer, a non-empty string made of the characters ['0'] and ['1']
    only. *)
Theorem convert_to_binary_is_binary (n : Z) (fuel : nat) :
  (31 <= fuel)%nat ->
  exists s,
    convert_to_binary fuel n = Some s /\
    s <> [] /\
    Forall (fun c => c = "0"%char \/ c = "1"%char) s.
Proof.
  intros Hfuel.
  assert (Hne : forall m, 0 <= m -> to_base 2 m <> []).
  { intros m Hm E. apply (f_equal (@List.length ascii)) in E.
    rewrite to_base_2_length in E by assumption. discriminate. }
  assert (Hright : forall s : str,
             s <> [] -> Forall (fun c => c = "0"%char \/ c = "1"%char) s ->
             rightmost 10 s <> [] /\
             Forall (fun c => c = "0"%char \/ c = "1"%char) (rightmost 10 s)).
  { intros s Hs Hall. split; [|now apply skipn_Forall].
    intros E. apply (f_equal (@List.length ascii)) in E.
    rewrite rightmost_length in E. destruct s; [congruence | simpl in E; lia]. }
  destruct (Z.lt_ge_cases n 0) as [Hneg | Hpos].
  - rewrite convert_to_binary_neg by assumption. eexists.
    split; [reflexivity|]. apply Hright.
    + unfold left_pad. intros E. apply app_eq_nil in E as [_ E].
      revert E. apply Hne. apply Z.mod_pos_bound. lia.
    + unfold left_pad. apply Forall_app. split; [|apply to_base_2_binary].
      apply Forall_forall. intros c Hc. apply repeat_spec in Hc. now right.
  - rewrite convert_to_binary_nonneg by assumption. eexists.
    split; [reflexivity|]. apply Hright; [now apply Hne | apply to_base_2_binary].
Qed.

Lemma convert_to_binary_is_binary_witness :
  exists s,
    convert_to_binary 31 (-7) = Some s /\
    s <> [] /\
    Forall (fun c => c = "0"%char \/ c = "1"%char) s.
Proof. apply (convert_to_binary_is_binary (-7) 31). lia. Defined.

(** X2. [convert_to_binary] keeps the ten low bits only: two numbers that
    each give ten characters (a number from 512 on, or a negative number
    whose low 32 bits are 512 or more) and that agree modulo 1024 give the
    same string, whatever their signs and their higher bits. *)
Theorem convert_to_binary_forgets_high_bits (n n' : Z) (fuel : nat) :
  (31 <= fuel)%nat ->
  512 <= n \/ (n < 0 /\ 512 <= n mod 2 ^ 32) ->
  512 <= n' \/ (n' < 0 /\ 512 <= n' mod 2 ^ 32) ->
  n mod 1024 = n' mod 1024 ->
  convert_to_binary fuel n = convert_to_binary fuel n'.
Proof.
  intros Hfuel Hn Hn' Hmod.
  rewrite !convert_to_binary_ten by assumption. f_equal.
  apply last_ten_agree.
  - destruct Hn as [Hn | [Hn Hm]];
      [replace (n <? 0) with false by (symmetry; apply Z.ltb_ge; lia)
      |replace (n <? 0) with true by (symmetry; apply Z.ltb_lt; lia)]; lia.
  - destruct Hn' as [Hn' | [Hn' Hm']];
      [replace (n' <? 0) with false by (symmetry; apply Z.ltb_ge; lia)
      |replace (n' <? 0) with true by (symmetry; apply Z.ltb_lt; lia)]; lia.
  - destruct (n <? 0), (n' <? 0); rewrite ?mod_1024_low_bits; exact Hmod.
Qed.

Lemma convert_to_binary_forgets_high_bits_witness :
  convert_to_binary 31 1023 = convert_to_binary 31 (-1).
Proof.
  apply (convert_to_binary_forgets_high_bits 1023 (-1) 31).
  - lia.
  - left. lia.
  - right. split; [lia|]. vm_compute. discriminate.
  - reflexivity.
Defined.

Lemma round_trip_holds_witness :
  exists s,
    convert_to_binary 31 (-5) = Some s /\ int_base 2 s = Some ((-5) mod 1024).
Proof.
  apply (round_trip_holds (-5) 31); [lia|].
  right. vm_compute. discriminate.
Defined.

Lemma round_trip_breaks_below_512_witness :
  exists s v,
    convert_to_binary 31 (-4294967291) = Some s /\ int_base 2 s = Some v /\
    (-4294967291) mod 1024 < v.
Proof.
  apply (round_trip_breaks_below_512 (-4294967291) 31); [lia | lia |].
  vm_compute. reflexivity.
Defined.

(** X5. For [n >= 0] the string of [convert_to_hexadecimal] has at most 8
    characters and reads back, in base 16, as [n mod 2^32]: the round trip
    gives [n] back exactly when [n < 2^32]. *)
Theorem convert_to_hexadecimal_nonneg (n : Z) :
  0 <= n ->
  len (convert_to_hexadecimal n) <= 8 /\
  int_base 16 (convert_to_hexadecimal n) = Some (n mod 2 ^ 32) /\
  (int_base 16 (convert_to_hexadecimal n) = Some n <-> n < 2 ^ 32).
Proof.
  intros Hn. unfold convert_to_hexadecimal. cbv zeta.
  replace (n <? 0) with false by (symmetry; apply Z.ltb_ge; lia).
  pose proof (Z.mod_pos_bound n (2 ^ 32) ltac:(lia)) as Hm.
  rewrite land_mask, format_X_nonneg by lia.
  rewrite int_base_to_base by lia.
  split; [apply to_base_length_le; try lia; exact Hm|].
  split; [reflexivity|]. split.
  - intros E. assert (E' : n mod 2 ^ 32 = n) by congruence.
    rewrite <- E'. apply Hm.
  - intros Hlt. now rewrite Z.mod_small by lia.
Qed.

Lemma convert_to_hexadecimal_nonneg_witness :
  len (convert_to_hexadecimal 4294967296) <= 8 /\
  int_base 16 (convert_to_hexadecimal 4294967296)
  = Some (4294967296 mod 2 ^ 32) /\
  (int_base 16 (convert_to_hexadecimal 4294967296) = Some 4294967296
   <-> 4294967296 < 2 ^ 32).
Proof. apply (convert_to_hexadecimal_nonneg 4294967296). lia. Defined.

(** X6. For a negative [n] from [-(2^32 - 2^28)] on, which covers the
    negative 32-bit integers, the string of [convert_to_hexadecimal] has
    exactly 10 characters and reads back, in base 16, as [n + 2^40]: the
    two's complement of [n] on 40 bits. *)
Theorem convert_to_hexadecimal_negative (n : Z) :
  - (2 ^ 32 - 2 ^ 28) <= n < 0 ->
  len (convert_to_hexadecimal n) = 10 /\
  int_base 16 (convert_to_hexadecimal n) = Some (n + 2 ^ 40).
Proof.
  intros [Hlo Hhi]. unfold convert_to_hexadecimal. cbv zeta.
  replace (n <? 0) with true by (symmetry; apply Z.ltb_lt; lia).
  assert (Hm : n mod 2 ^ 32 = n + 2 ^ 32).
  { rewrite <- (Z.mod_add n 1 (2 ^ 32)) by lia. apply Z.mod_small. lia. }
  rewrite land_mask, Hm, format_X_nonneg by lia.
  assert (Hlen : len (to_base 16 (n + 2 ^ 32)) = 8)
    by (apply to_base_length; lia).
  split; [rewrite len_app, Hlen; reflexivity|].
  unfold to_base in *.
  set (ds := digits_lsb (S (Z.to_nat (Z.log2 (n + 2 ^ 32)))) 16 (n + 2 ^ 32)) in *.
  change (py "FF") with (map digit_char (rev [15; 15])).
  rewrite <- map_app, <- rev_app_distr.
  rewrite int_base_digits.
  - f_equal. rewrite eval_lsb_app.
    unfold ds at 1. rewrite digits_lsb_eval by (try apply log2_fuel; lia).
    unfold len in Hlen. rewrite length_map, length_rev in Hlen.
    rewrite Hlen. change (eval_lsb 16 [15; 15]) with 255. lia.
  - lia.
  - intros E. apply app_eq_nil in E as [_ E]. discriminate.
  - apply Forall_app. split; [apply digits_lsb_range; lia|].
    repeat constructor; lia.
Qed.

Lemma convert_to_hexadecimal_negative_witness :
  len (convert_to_hexadecimal (-5)) = 10 /\
  int_base 16 (convert_to_hexadecimal (-5)) = Some (-5 + 2 ^ 40).
Proof. apply (convert_to_hexadecimal_negative (-5)). lia. Defined.

(** X7. For a positive [bits], and with fuel for its loop,
    [to_twos_complement] returns a string of exactly [bits] characters, and
    on that string it changes nothing and takes no round of its loop. *)
Theorem to_twos_complement_idempotent (s : str) (bits : Z) (fuel : nat) :
  0 < bits -> (Z.to_nat (bits - len s) <= fuel)%nat ->
  exists r,
    to_twos_complement fuel s bits = Some r /\
    len r = bits /\
    to_twos_complement 0 r bits = Some r.
Proof.
  intros Hbits Hfuel. rewrite to_twos_complement_spec by assumption.
  set (r := if bits <? len s
            then rightmost (Z.to_nat bits) s
            else left_pad "1" (Z.to_nat bits) s).
  assert (Hlen : len r = bits).
  { unfold r. destruct (Z.ltb_spec bits (len s)) as [Hlt | Hge]; unfold len in *.
    - rewrite rightmost_length. lia.
    - rewrite left_pad_length by lia. lia. }
  exists r. split; [reflexivity|]. split; [exact Hlen|].
  rewrite to_twos_complement_spec by (rewrite ?Hlen; lia).
  rewrite Hlen, Z.ltb_irrefl. unfold left_pad. unfold len in Hlen.
  replace (Z.to_nat bits - List.length r)%nat with O by lia. reflexivity.
Qed.

Lemma to_twos_complement_idempotent_witness :
  exists r,
    to_twos_complement 5 (py "101") 8 = Some r /\
    len r = 8 /\
    to_twos_complement 0 r 8 = Some r.
Proof.
  apply (to_twos_complement_idempotent (py "101") 8 5); [lia | simpl; lia].
Defined.

(** X8. For [bits <= 0] [to_twos_complement] does not cut the string to
    [bits] characters: it takes no round of its loop and returns the string
    without its first [-bits] characters, so for [bits = 0] the string
    itself. *)
Theorem to_twos_complement_nonpositive_bits (s : str) (bits : Z) (fuel : nat) :
  bits <= 0 ->
  to_twos_complement fuel s bits = Some (skipn (Z.to_nat (- bits)) s).
Proof.
  intros Hbits. unfold to_twos_complement.
  pose proof (len_nonneg s) as Hs.
  destruct (Z.ltb_spec bits (len s)) as [Hlt | Hge].
  - f_equal. unfold slice_from.
    replace (- bits <? 0) with false by (symmetry; apply Z.ltb_ge; lia).
    destruct (Z.le_gt_cases (- bits) (len s)) as [Hle | Hgt].
    + now rewrite Z.min_l by assumption.
    + rewrite Z.min_r by lia. unfold len in *.
      rewrite !skipn_all2 by lia. reflexivity.
  - assert (bits = 0 /\ len s = 0) as [-> Hnil] by lia.
    destruct s; [|rewrite len_cons in Hnil; pose proof (len_nonneg s); lia].
    destruct fuel; reflexivity.
Qed.

Lemma to_twos_complement_nonpositive_bits_witness :
  to_twos_complement 0 (py "101") 0 = Some (skipn (Z.to_nat (- 0)) (py "101")).
Proof. apply (to_twos_complement_nonpositive_bits (py "101") 0 0). lia. Defined.

End ConversionProperties.

(** ** convert_numbers.py: the program *)

Module ConversionProgram.
Import ConvertNumbers PyFacts ConvertNumbersFacts.





Lemma convert_all_results (fuel : nat) (numbers : list Z) :
  forall printed results,
    convert_all fuel numbers = Some (printed, results) ->
    map number results = numbers /\
    Forall (fun r => convert_to_binary fuel (number r) = Some (binary r) /\
                     hexadecimal r = convert_to_hexadecimal (number r))
      results /\
    printed = map (fun r => Converted (number r) (binary r) (hexadecimal r))
                results.
Proof.
  induction numbers as [|n numbers IH]; intros printed results Hall.
  - inversion Hall; subst. repeat split. constructor.
  - simpl in Hall. destruct (convert_to_binary fuel n) as [b|] eqn:Hb;
      [|discriminate].
    destruct (convert_all fuel numbers) as [[printed' results']|];
      [|discriminate].
    inversion Hall; subst. clear Hall.
    destruct (IH _ _ eq_refl) as (Hnum & Hres & Hpr).
    simpl. rewrite Hnum, <- Hpr. repeat split.
    constructor; [|exact Hres]. simpl. now split.
Qed.




End ConversionProgram.

(** ** compute_statistics.py: median, variance and the program *)

Module StatisticsFacts.
Import ComputeStatistics DictFacts.

Section Facts.
Context {F : Type} `{Number F}.

Lemma index_nth {A} (l : list A) (i : Z) (d : A) :
  0 <= i < len l -> index l i = Return (nth (Z.to_nat i) l d).
Proof.
  intros Hi. unfold index.
  replace (i <? 0) with false by (symmetry; apply Z.ltb_ge; lia).
  replace (i <? 0) with false by (symmetry; apply Z.ltb_ge; lia).
  unfold len in Hi.
  destruct (nth_error l (Z.to_nat i)) as [a|] eqn:E.
  - f_equal. symmetry. now apply nth_error_nth.
  - apply nth_error_None in E. lia.
Qed.

Lemma index_nth_from_end {A} (l : list A) (i : Z) (d : A) :
  - len l <= i < 0 -> index l i = Return (nth (Z.to_nat (len l + i)) l d).
Proof.
  intros Hi. unfold index.
  replace (i <? 0) with true by (symmetry; apply Z.ltb_lt; lia).
  replace (len l + i <? 0) with false by (symmetry; apply Z.ltb_ge; lia).
  unfold len in *.
  destruct (nth_error l (Z.to_nat (Z.of_nat (List.length l) + i))) as [a|] eqn:E.
  - f_equal. symmetry. now apply nth_error_nth.
  - apply nth_error_None in E. lia.
Qed.

Lemma insert_by_length {A} (before : A -> A -> bool) (x : A) (l : list A) :
  List.length (insert_by before x l) = S (List.length l).
Proof.
  induction l as [|y l IH]; simpl; [reflexivity|].
  destruct (before y x); simpl; [now rewrite IH | reflexivity].
Qed.

Lemma sorted_by_length {A} (before : A -> A -> bool) (l : list A) :
  List.length (sorted_by before l) = List.length l.
Proof.
  induction l as [|x l IH]; simpl; [reflexivity|].
  now rewrite insert_by_length, IH.
Qed.

(** In a sorted list no element is followed by a smaller one. *)
Lemma insert_by_ltb_sorted (x : F) (l : list F) :
  (forall a b, ltb a b = true -> ltb b a = false) ->
  Sorted (fun a b => ltb b a = false) l ->
  Sorted (fun a b => ltb b a = false) (insert_by ltb x l).
Proof.
  intros Hasym. induction 1 as [|y l Hl IH Hy]; simpl.
  - repeat constructor.
  - destruct (ltb y x) eqn:Hyx.
    + constructor; [exact IH|].
      destruct l as [|z l]; simpl.
      * constructor. now apply Hasym.
      * destruct (ltb z x).
        -- constructor. now inversion Hy.
        -- constructor. now apply Hasym.
    + constructor; [now constructor|]. now constructor.
Qed.

Lemma sorted_by_ltb_sorted (l : list F) :
  (forall a b, ltb a b = true -> ltb b a = false) ->
  Sorted (fun a b => ltb b a = false) (sorted_by ltb l).
Proof.
  intros Hasym. induction l as [|x l IH]; simpl; [constructor|].
  now apply insert_by_ltb_sorted.
Qed.





End Facts.
End StatisticsFacts.

Module StatisticsProperties.
Import ComputeStatistics DictFacts StatisticsFacts ExactNumber.

Lemma Q_ltb_asym (a b : Q) : ltb a b = true -> ltb b a = false.
Proof.
  simpl. intros Hab. apply negb_true_iff in Hab. apply negb_false_iff.
  apply Qle_bool_iff. apply Qlt_le_weak, Qnot_le_lt.
  intros Hle. apply Qle_bool_iff in Hle. congruence.
Qed.



Section Properties.
Context {F : Type} `{Number F}.

(** X11. [compute_median] raises [IndexError] on the empty list. On any
    other list it raises nothing, and returns the middle element of the
    sorted data when their number is odd, and the sum of the two middle
    elements divided by 2 when it is even; the sorted data are a
    permutation of the data in which, [<] being asymmetric, no element is
    followed by a smaller one. *)
Theorem compute_median_spec :
  compute_median (F := F) [] = Raise IndexError /\
  forall data : list F,
    (forall a b, ltb a b = true -> ltb b a = false) ->
    data <> [] ->
    exists sorted_data,
      Permutation sorted_data data /\
      Sorted (fun a b => ltb b a = false) sorted_data /\
      compute_median data
      = Return
          (let mid := Z.to_nat (len data / 2) in
           if len data mod 2 =? 0
           then div (add (nth mid sorted_data (of_int 0))
                         (nth (mid - 1) sorted_data (of_int 0)))
                    (of_int 2)
           else nth mid sorted_data (of_int 0)).
Proof.
  split; [reflexivity|]. intros data Hasym Hne.
  exists (sorted_by ltb data).
  split; [apply WordCountSpec.sorted_by_perm|].
  split; [now apply sorted_by_ltb_sorted|].
  unfold compute_median. cbv zeta.
  assert (Hlen : len (sorted_by ltb data) = len data)
    by (unfold len; now rewrite sorted_by_length).
  assert (Hpos : 1 <= len data).
  { destruct data; [congruence|]. rewrite PyFacts.len_cons.
    pose proof (PyFacts.len_nonneg data). lia. }
  assert (Hmid : 0 <= len data / 2 < len data).
  { split; [apply Z.div_pos; lia | apply Z.div_lt_upper_bound; lia]. }
  rewrite (index_nth _ _ (of_int 0)) by (rewrite Hlen; exact Hmid).
  destruct (Z.eqb_spec (len data mod 2) 0) as [Heven | Hodd]; [|reflexivity].
  rewrite (index_nth_from_end _ _ (of_int 0)) by (rewrite Hlen; lia).
  rewrite Hlen.
  pose proof (Z.div_mod (len data) 2 ltac:(lia)) as Hdm.
  replace (Z.to_nat (len data + (- (len data / 2) - 1)))
    with (Z.to_nat (len data / 2) - 1)%nat by lia.
  reflexivity.
Qed.


(** X13. A file in which exactly one line is a valid number makes the
    statistics program end on an exception nobody catches, hence with exit
    status 1 and without results: [ZeroDivisionError], unless the square in
    the variance overflows first. *)
Theorem main_one_number (prog file_path : str) (rest : list str)
  (fs : str -> open_result) (x : F) :
  snd (read_file fs file_path) = [x] ->
  exists printed e,
    main (prog :: file_path :: rest) fs = (printed, Uncaught e) /\
    exit_status (Uncaught (R := statistics F) e) = 1 /\
    e = match pow_2 (sub x (div (add (of_int 0) x) (of_int 1))) with
        | Return _ => ZeroDivisionError
        | Raise e' => e'
        end.
Proof.
  intros Hread. unfold main.
  destruct (read_file fs file_path) as [printed data]. simpl in Hread.
  subst data.
  assert (Hmean : compute_mean [x] = Return (div (add (of_int 0) x) (of_int 1)))
    by reflexivity.
  assert (Hmedian : compute_median [x] = Return x) by reflexivity.
  assert (Hmode : compute_mode [x] = Return NA) by reflexivity.
  unfold compute_all. rewrite Hmean, Hmedian, Hmode. cbn [bind].
  rewrite VarianceSpec.compute_variance_one.
  destruct (pow_2 _) as [sq | e']; cbn [bind];
    eexists; eexists; (split; [reflexivity|]); split; reflexivity.
Qed.


End Properties.

Lemma compute_median_spec_witness :
  exists sorted_data,
    Permutation sorted_data [5 # 1; 1 # 1; 3 # 1; 2 # 1]%Q /\
    Sorted (fun a b => ltb b a = false) sorted_data /\
    compute_median [5 # 1; 1 # 1; 3 # 1; 2 # 1]%Q
    = Return
        (let mid := Z.to_nat (len [5 # 1; 1 # 1; 3 # 1; 2 # 1]%Q / 2) in
         if len [5 # 1; 1 # 1; 3 # 1; 2 # 1]%Q mod 2 =? 0
         then div (add (nth mid sorted_data (of_int 0))
                       (nth (mid - 1) sorted_data (of_int 0)))
                  (of_int 2)
         else nth mid sorted_data (of_int 0)).
Proof.
  apply (proj2 (compute_median_spec (F := Q))
           [5 # 1; 1 # 1; 3 # 1; 2 # 1]%Q Q_ltb_asym).
  discriminate.
Defined.


Lemma main_one_number_witness :
  exists printed e,
    main (F := Q) [py "prog"; py "data.txt"] (one_file (py "7"))
    = (printed, Uncaught e) /\
    exit_status (Uncaught (R := statistics Q) e) = 1 /\
    e = match pow_2 (sub (7 # 1)%Q (div (add (of_int 0) (7 # 1)%Q) (of_int 1))) with
        | Return _ => ZeroDivisionError
        | Raise e' => e'
        end.
Proof.
  apply (main_one_number (F := Q) (py "prog") (py "data.txt") []
           (one_file (py "7")) (7 # 1)%Q).
  reflexivity.
Defined.


End StatisticsProperties.

(** ** compute_statistics.py: which mode is returned *)

Module ModeOrder.
Import ComputeStatistics DictFacts StatisticsFacts ExactNumber.

Section Order.
Context {F : Type} `{Number F}.

Lemma count_frequency_app (data : list F) (x : F) :
  count_frequency (data ++ [x]) = count_one (count_frequency data) x.
Proof. unfold count_frequency. now rewrite fold_left_app. Qed.

Lemma has_key_bump (d : list (F * Z)) (x y : F) :
  has_key (map (bump x) d) y = has_key d y.
Proof. unfold has_key. now rewrite map_fst_bump. Qed.

(** The keys of the dict are in the order in which the data first show
    them: all that is before the first occurrence of a key has a key
    before it. *)
Lemma count_frequency_order (data : list F) :
  forall d1 k v d2,
    count_frequency data = d1 ++ (k, v) :: d2 ->
    exists pre post,
      data = pre ++ k :: post /\
      forall y, In y pre -> has_key d1 y = true.
Proof.
  induction data as [|x data IH] using rev_ind; intros d1 k v d2 Hd.
  - destruct d1; discriminate.
  - pose proof (counted_frequency data) as Hc.
    rewrite count_frequency_app, count_one_eq in Hd
      by apply (counted_distinct _ _ Hc).
    destruct (has_key (count_frequency data) x) eqn:Hx.
    + apply map_eq_app in Hd as (D1 & D2' & HD & Hd1 & Hd2).
      destruct D2' as [|[k0 v0] D2]; [discriminate|].
      simpl in Hd2. inversion Hd2 as [[Hb Hrest]].
      assert (Hk : k0 = k).
      { unfold bump in Hb. simpl in Hb.
        destruct (key_eqb k0 x); now inversion Hb. }
      subst k0. destruct (IH _ _ _ _ HD) as (pre & post & -> & Hpre).
      exists pre, (post ++ [x]). split; [now rewrite <- app_assoc|].
      intros y Hy. rewrite <- Hd1, has_key_bump. now apply Hpre.
    + destruct d2 as [|e d2] using rev_ind.
      * apply app_inj_tail in Hd as [Hd1 He]. inversion He; subst.
        exists data, []. split; [reflexivity|].
        intros y Hy. now apply (counted_keys _ _ Hc).
      * clear IHd2. rewrite app_comm_cons, app_assoc in Hd.
        apply app_inj_tail in Hd as [HD _].
        destruct (IH _ _ _ _ HD) as (pre & post & -> & Hpre).
        exists pre, (post ++ [x]). split; [now rewrite <- app_assoc|].
        exact Hpre.
Qed.

Lemma filter_first {A} (f : A -> bool) (l : list A) (a : A) (rest : list A) :
  filter f l = a :: rest ->
  exists l1 l2,
    l = l1 ++ a :: l2 /\ f a = true /\ forall b, In b l1 -> f b = false.
Proof.
  induction l as [|b l IH]; [discriminate|]. simpl.
  destruct (f b) eqn:Hb; intros E.
  - inversion E; subst. exists [], l. repeat split; [assumption | intros ? []].
  - destruct (IH E) as (l1 & l2 & -> & Ha & Hl1).
    exists (b :: l1), l2. repeat split; [assumption|].
    intros c [<- | Hc]; [assumption | now apply Hl1].
Qed.

(** X15. When [compute_mode] returns a number, it is the first of the
    numbers of maximal frequency to appear in the data: every element
    before its first occurrence occurs less often than it. *)
Theorem compute_mode_first (data : list F) (m : F) :
  compute_mode data = Return (Mode m) ->
  exists pre post,
    data = pre ++ m :: post /\
    (forall y, In y pre -> key_eqb y m = false) /\
    forall y, In y pre -> occurrences y data < occurrences m data.
Proof.
  unfold compute_mode. cbv zeta.
  pose proof (counted_frequency data) as Hc.
  set (d := count_frequency data) in *.
  set (mx := max_default_0 (map snd d)).
  destruct (len data =? _); [discriminate|].
  destruct (filter (fun item : F * Z => snd item =? mx) d)
    as [|[m' v] rest] eqn:Hkept; [discriminate|].
  simpl. intros E. inversion E; subst m'. clear E.
  destruct (filter_first _ _ _ _ Hkept) as (d1 & d2 & Hd & Hv & Hd1).
  simpl in Hv. apply Z.eqb_eq in Hv. subst v.
  destruct (count_frequency_order data d1 m mx d2 Hd) as (pre & post & Hdata & Hpre).
  assert (Hm : In (m, mx) d) by (rewrite Hd; apply in_or_app; right; now left).
  destruct (counted_values _ _ Hc _ _ Hm) as [_ Hmx].
  assert (Hmax : forall w, In w (map snd d) -> w <= mx).
  { apply ComputeStatisticsSpec.max_default_0_spec.
    rewrite Hd, map_app. intros E. apply app_eq_nil in E as [_ E]. discriminate. }
  assert (Hless : forall y, In y pre ->
            exists k' v', In (k', v') d1 /\ key_eqb k' y = true /\ v' < mx /\
                          v' = occurrences y data).
  { intros y Hy. destruct (has_key_In _ _ (Hpre y Hy)) as (k' & v' & Hin & Hky).
    exists k', v'. split; [assumption|]. split; [assumption|].
    assert (Hin' : In (k', v') d) by (rewrite Hd; apply in_or_app; now left).
    pose proof (Hd1 _ Hin) as Hne. simpl in Hne. apply Z.eqb_neq in Hne.
    assert (v' <= mx) by (apply Hmax, in_map_iff; now exists (k', v')).
    split; [lia|].
    destruct (counted_values _ _ Hc _ _ Hin') as [_ ->].
    now apply occurrences_equiv. }
  exists pre, post. split; [exact Hdata|]. split.
  - intros y Hy. destruct (Hless y Hy) as (k' & v' & Hin & Hky & Hlt & Hocc).
    destruct (key_eqb y m) eqn:Hym; [|reflexivity].
    rewrite (occurrences_equiv y m data Hym), <- Hmx in Hocc. lia.
  - intros y Hy. destruct (Hless y Hy) as (k' & v' & _ & _ & Hlt & Hocc).
    rewrite <- Hmx, <- Hocc. exact Hlt.
Qed.

End Order.

Lemma compute_mode_first_witness :
  exists pre post,
    [1 # 1; 3 # 1; 2 # 1; 3 # 1; 2 # 1]%Q = pre ++ (3 # 1)%Q :: post /\
    (forall y, In y pre -> key_eqb y (3 # 1)%Q = false) /\
    forall y, In y pre ->
      occurrences y [1 # 1; 3 # 1; 2 # 1; 3 # 1; 2 # 1]%Q
      < occurrences (3 # 1)%Q [1 # 1; 3 # 1; 2 # 1; 3 # 1; 2 # 1]%Q.
Proof.
  apply (compute_mode_first [1 # 1; 3 # 1; 2 # 1; 3 # 1; 2 # 1]%Q (3 # 1)%Q).
  reflexivity.
Defined.

End ModeOrder.

(** ** word_count.py: the counts *)

Module WordCountFacts.
Import WordCount.

Lemma key_eqb_eq (a b : str) : key_eqb a b = true <-> a = b.
Proof.
  unfold key_eqb. destruct (list_eq_dec ascii_dec a b); split; congruence.
Qed.

Lemma key_eqb_refl (a : str) : key_eqb a a = true.
Proof. now apply key_eqb_eq. Qed.

Lemma key_eqb_neq (a b : str) : key_eqb a b = false <-> a <> b.
Proof.
  unfold key_eqb. destruct (list_eq_dec ascii_dec a b); split; congruence.
Qed.







Lemma total_app (d d' : list (str * Z)) : total (d ++ d') = total d + total d'.
Proof.
  unfold total. induction d as [|[k v] d IH]; simpl; [reflexivity|].
  rewrite IH. lia.
Qed.


Lemma key_eqb_sym (a b : str) : key_eqb a b = key_eqb b a.
Proof.
  destruct (key_eqb b a) eqn:E.
  - apply key_eqb_eq in E. subst. apply key_eqb_refl.
  - apply key_eqb_neq in E. apply key_eqb_neq. congruence.
Qed.




End WordCountFacts.

Module WordCountProperties.
Import WordCount WordCountFacts WordCountSpec.






Lemma insert_by_count_ties (c : Z) (x : str * Z) (l : list (str * Z)) :
  filter (fun item => snd item =? c) (insert_by by_count x l)
  = filter (fun item => snd item =? c) (x :: l).
Proof.
  induction l as [|y l IH]; [reflexivity|].
  cbn [insert_by]. unfold by_count at 1.
  destruct (Z.ltb_spec (snd x) (snd y)) as [Hlt | Hge]; [|reflexivity].
  cbn [filter] in *. rewrite IH.
  destruct (Z.eqb_spec (snd x) c) as [Hx | Hx]; [|reflexivity].
  destruct (Z.eqb_spec (snd y) c) as [Hy | Hy]; [lia | reflexivity].
Qed.

(** X18. Sorting the pairs keeps ties in the order of the dict: the pairs
    of any one count come out of [sorted] in the order they have in the
    dict, which is the order in which the words first appear. *)
Theorem sorted_items_ties (word_count : list (str * Z)) (c : Z) :
  filter (fun item => snd item =? c) (sorted_items word_count)
  = filter (fun item => snd item =? c) word_count.
Proof.
  unfold sorted_items. induction word_count as [|x l IH]; [reflexivity|].
  cbn [sorted_by fold_right]. fold (sorted_by by_count l).
  rewrite insert_by_count_ties. cbn [filter]. now rewrite IH.
Qed.


End WordCountProperties.

(** ** convert_numbers.py: the results file *)

Module ResultsFile.
Import ConvertNumbers PyFacts ConvertNumbersFacts ConversionFacts
  ConversionProgram.

Lemma digit_char_one_line (d : Z) : digit_char d <> "010"%char.
Proof.
  unfold digit_char.
  destruct (nth_in_or_default (Z.to_nat d) (py "0123456789ABCDEF") "0"%char)
    as [Hin | ->]; [|discriminate].
  revert Hin. generalize (nth (Z.to_nat d) (py "0123456789ABCDEF") "0"%char).
  intros c Hin. simpl in Hin.
  repeat (destruct Hin as [<- | Hin]; [discriminate|]). contradiction.
Qed.

Lemma to_base_one_line (base m : Z) : one_line (to_base base m).
Proof.
  unfold one_line, to_base. apply Forall_map, Forall_forall.
  intros d _. apply digit_char_one_line.
Qed.

Lemma one_line_app (s t : str) : one_line s -> one_line t -> one_line (s ++ t).
Proof. intros Hs Ht. apply Forall_app. now split. Qed.

Lemma str_of_int_one_line (n : Z) : one_line (str_of_int n).
Proof.
  unfold str_of_int. apply one_line_app; [|apply to_base_one_line].
  destruct (n <? 0); repeat constructor; discriminate.
Qed.

Lemma convert_to_hexadecimal_one_line (n : Z) :
  one_line (convert_to_hexadecimal n).
Proof.
  assert (Hf : forall m, one_line (format_X m)).
  { intros m. unfold format_X. apply one_line_app; [|apply to_base_one_line].
    destruct (m <? 0); repeat constructor; discriminate. }
  unfold convert_to_hexadecimal. cbv zeta.
  destruct (n <? 0); [|apply Hf].
  apply one_line_app; [repeat constructor; discriminate | apply Hf].
Qed.

Lemma convert_to_binary_one_line (fuel : nat) (n : Z) (s : str) :
  (31 <= fuel)%nat -> convert_to_binary fuel n = Some s -> one_line s.
Proof.
  intros Hfuel. destruct (Z.lt_ge_cases n 0) as [Hneg | Hpos].
  - rewrite convert_to_binary_neg by assumption. intros E. inversion E.
    apply skipn_Forall. unfold left_pad.
    apply one_line_app; [|apply to_base_one_line].
    apply Forall_forall. intros c Hc. apply repeat_spec in Hc. subst c.
    discriminate.
  - rewrite convert_to_binary_nonneg by assumption. intros E. inversion E.
    apply skipn_Forall, to_base_one_line.
Qed.

(** A text file whose lines end in a newline gives its lines back. *)
Lemma file_lines_aux_line (pre : str) :
  one_line pre ->
  forall cur rest,
    file_lines_aux cur (pre ++ "010"%char :: rest)
    = (rev cur ++ pre ++ ["010"%char]) :: file_lines_aux [] rest.
Proof.
  induction 1 as [|c pre Hc Hpre IH]; intros cur rest.
  - reflexivity.
  - cbn [app file_lines_aux].
    destruct (Ascii.eqb_spec c "010"); [contradiction|].
    rewrite IH. cbn [rev]. now rewrite <- app_assoc.
Qed.

Lemma file_lines_concat (lines : list str) :
  Forall one_line lines ->
  file_lines (List.concat (map (fun line => line ++ ["010"%char]) lines))
  = map (fun line => line ++ ["010"%char]) lines.
Proof.
  unfold file_lines. induction 1 as [|line lines Hline _ IH]; [reflexivity|].
  cbn [map List.concat]. rewrite <- app_assoc. cbn [app].
  rewrite file_lines_aux_line by assumption. now rewrite IH.
Qed.

(** X20. When a run of the conversion program ends normally, the content
    of the results file, read line by line, is the header and then one
    line for each result, in order: no conversion holds a newline. *)
Theorem results_file_lines (fuel : nat) (argv : list str)
  (fs : str -> open_result) (printed : list message)
  (results : list conversion) :
  (31 <= fuel)%nat ->
  main fuel argv fs = Some (printed, Done results) ->
  file_lines (write_results_to_file results)
  = (py "Number, Binary, Hexadecimal" ++ ["010"%char])
      :: map result_line results /\
  Forall (fun r => one_line (binary r) /\ one_line (hexadecimal r)) results.
Proof.
  intros Hfuel Hmain.
  assert (Hres : Forall (fun r =>
                   convert_to_binary fuel (number r) = Some (binary r) /\
                   hexadecimal r = convert_to_hexadecimal (number r)) results).
  { unfold main in Hmain.
    destruct argv as [|prog [|file_path rest]]; try discriminate.
    destruct (read_file fs file_path) as [p [|n numbers]]; [discriminate|].
    destruct (convert_all fuel (n :: numbers)) as [[p' r]|] eqn:Hall;
      [|discriminate].
    inversion Hmain; subst.
    now destruct (convert_all_results _ _ _ _ Hall) as (_ & Hr & _). }
  assert (Hone : Forall (fun r => one_line (binary r) /\ one_line (hexadecimal r))
                   results).
  { eapply Forall_impl; [|exact Hres]. intros r [Hb Hh]. split.
    - now apply (convert_to_binary_one_line fuel (number r)).
    - rewrite Hh. apply convert_to_hexadecimal_one_line. }
  split; [|exact Hone].
  unfold write_results_to_file.
  change (py "Number, Binary, Hexadecimal" ++ ["010"%char])
    with ([] ++ py "Number, Binary, Hexadecimal" ++ ["010"%char]) at 2.
  unfold file_lines. rewrite <- app_assoc. cbn [app].
  rewrite (file_lines_aux_line (py "Number, Binary, Hexadecimal"))
    by (repeat constructor; discriminate).
  f_equal.
  set (body := fun r => str_of_int (number r) ++ py ", " ++ binary r
                          ++ py ", " ++ hexadecimal r).
  assert (Hline : forall r, result_line r = body r ++ ["010"%char]).
  { intros r. unfold result_line, body. now rewrite <- !app_assoc. }
  rewrite (map_ext _ _ Hline), <- (map_map body (fun line => line ++ ["010"%char])).
  apply file_lines_concat. apply Forall_map.
  eapply Forall_impl; [|exact Hone]. intros r [Hb Hh]. unfold body.
  assert (Hsep : one_line (py ", "))
    by (repeat (constructor; [discriminate|]); constructor).
  apply one_line_app; [apply str_of_int_one_line|].
  apply one_line_app; [exact Hsep|].
  apply one_line_app; [exact Hb|].
  apply one_line_app; [exact Hsep | exact Hh].
Qed.

Lemma results_file_lines_witness :
  file_lines
    (write_results_to_file
       [{| number := 12; binary := py "1100"; hexadecimal := py "C" |}])
  = (py "Number, Binary, Hexadecimal" ++ ["010"%char])
      :: map result_line
           [{| number := 12; binary := py "1100"; hexadecimal := py "C" |}] /\
  Forall (fun r => one_line (binary r) /\ one_line (hexadecimal r))
    [{| number := 12; binary := py "1100"; hexadecimal := py "C" |}].
Proof.
  apply (results_file_lines 31 [py "prog"; py "data.txt"]
           (ExactNumber.one_file (py "12"))
           [Converted 12 (py "1100") (py "C"); ResultsWritten]
           [{| number := 12; binary := py "1100"; hexadecimal := py "C" |}]).
  - lia.
  - vm_compute. reflexivity.
Defined.

End ResultsFile.

(** ** compute_statistics.py: reading the file *)

Module StatisticsInput.
Import ComputeStatistics ExactNumber.

Section Input.
Context {F : Type} `{Number F}.

Lemma read_lines_facts (lines : list str) :
  snd (read_lines lines)
  = flat_map (fun line => match float (strip line) with
                          | Some number => [number]
                          | None => []
                          end) lines /\
  fst (read_lines lines)
  = flat_map (fun line => match float (strip line) with
                          | Some _ => []
                          | None => [InvalidDataSkipped (strip line)]
                          end) lines /\
  (List.length (fst (read_lines lines)) + List.length (snd (read_lines lines))
   = List.length lines)%nat.
Proof.
  induction lines as [|line lines (Hdata & Hprinted & Hcount)];
    [repeat split|].
  cbn [read_lines flat_map].
  destruct (read_lines lines) as [printed valid_data]. cbn [fst snd] in *.
  destruct (float (strip line)); cbn [fst snd app List.length];
    rewrite Hdata, Hprinted in *; repeat split; lia.
Qed.

(** X21. [read_file] of the statistics program loses no line of a file
    that opens: the numbers it returns are the values of the lines that
    [float] accepts, in the order of the file, every other line is
    reported, and numbers and reports together are as many as the lines.
    For a file that does not open it returns no number and prints one
    message, which tells a missing file from one that may not be read. *)
Theorem statistics_read_file_spec (fs : str -> open_result) (file_path : str) :
  (forall content,
      fs file_path = Opened content ->
      snd (read_file fs file_path)
      = flat_map (fun line => match float (strip line) with
                              | Some number => [number]
                              | None => []
                              end) (file_lines content) /\
      (List.length (fst (read_file fs file_path))
       + List.length (snd (read_file fs file_path))
       = List.length (file_lines content))%nat) /\
  (fs file_path = FileNotFoundError ->
   read_file fs file_path = ([FileNotFound file_path], [])) /\
  (fs file_path = PermissionError ->
   read_file fs file_path = ([PermissionDenied file_path], [])).
Proof.
  unfold read_file. split; [|split]; try (intros ->; reflexivity).
  intros content ->.
  destruct (read_lines_facts (file_lines content)) as (Hdata & _ & Hcount).
  now split.
Qed.

End Input.

Lemma statistics_read_file_spec_witness :
  snd (read_file (F := Q) (one_file (py "3.5")) (py "data.txt"))
  = flat_map (fun line => match float (strip line) with
                          | Some number => [number]
                          | None => []
                          end) (file_lines (py "3.5")) /\
  (List.length (fst (read_file (F := Q) (one_file (py "3.5")) (py "data.txt")))
   + List.length (snd (read_file (F := Q) (one_file (py "3.5")) (py "data.txt")))
   = List.length (file_lines (py "3.5")))%nat.
Proof.
  apply (proj1 (statistics_read_file_spec (F := Q) (one_file (py "3.5"))
                  (py "data.txt")) (py "3.5")).
  reflexivity.
Defined.

End StatisticsInput.
